(** * electrobot: a shallow embedding of the bot core and of its SQLite store

    The development follows the two Go packages of the repository:
    - [database]: the [tg_users] and [events] tables and the statements the
      package issues against them;
    - [telegrambot]: the [ElectroBot] value, its command handlers, the boot
      notification pass and the event loop.

    The bot reaches the store through its [Storage] interface, a class
    here, of which the database is the instance the program runs with.

    The program is effectful: it changes the tables, writes log lines through
    logrus and hands messages to the chat platform.  All three are fields of
    one [World] value that is threaded through a small state monad.  What the
    program cannot decide itself -- whether the SQL driver executes a
    statement or reports a fault, whether the platform accepts a message,
    what the clock shows -- is an explicit argument of the operation that
    depends on it. *)

From stdpp Require Import gmap strings list fin_maps sorting.

Local Open Scope string_scope.
Local Open Scope list_scope.
Local Open Scope Z_scope.

(** ** Values shared by both packages *)

(** A point in time, in seconds; [time.Time] in the source. *)
Definition Time := Z.

(** Go's [error] values that occur in the program.  A Go [error] result is
    an [option error]; [None] is [nil]. *)
Inductive error : Type :=
  | ErrConstraint            (* sqlite: UNIQUE constraint failed: tg_users.user_id *)
  | NotFound                 (* no row matched the statement *)
  | ErrDriver (code : Z)     (* any other failure reported by database/sql *)
  | ErrSend (code : Z).      (* the chat platform refused or lost a message *)

#[global] Instance error_eq_dec : EqDecision error.
Proof. solve_decision. Defined.

(** What database/sql does with one statement: the engine executes it, or
    the call returns an error and the tables stay as they were. *)
Inductive Driver : Type :=
  | Executes
  | Faults (e : error).

(** What database/sql does with a query whose rows the caller steps through
    itself, with [rows.Next]: the query delivers all its rows; or [Query]
    returns an error; or [Query] succeeds and [Next], after some rows, ends
    the loop on a failure, which it leaves in [rows.Err].  ([Exec] and
    [QueryRow(..).Scan] return a failure of the stepping themselves, so for
    them it is a [Faults].) *)
Inductive Rows : Type :=
  | Delivers
  | Refuses (e : error)
  | Breaks (n : nat) (e : error).

(** A query that is executed, or not, as a whole. *)
Definition stepped (drv : Driver) : Rows :=
  match drv with
  | Executes => Delivers
  | Faults e => Refuses e
  end.

Coercion stepped : Driver >-> Rows.

(** The part of tgbotapi's [User], [Chat] and [Message] that the program
    reads.  [Command] and [IsCommand] are the results of the library's
    accessors of the same names.  [From] is dereferenced without a check by
    [StoreUserInfo]; updates delivered as [update.Message] carry a sender. *)
Record User : Type := mkUser {
  UserID : Z;
  UserName : string;
  FirstName : string;
  LastName : string }.

Record Chat : Type := mkChat { ChatID : Z }.

Record Message : Type := mkMessage {
  MessageID : Z;
  From : User;
  InChat : Chat;
  IsCommand : bool;
  Command : string }.

(** tgbotapi's [MessageConfig], the argument of [Send]. *)
Record MessageConfig : Type := mkMessageConfig {
  ToChat : Z;
  ReplyToMessageID : Z;
  Text : string }.

#[global] Instance MessageConfig_eq_dec : EqDecision MessageConfig.
Proof. solve_decision. Defined.

(** [botApi.NewMessage(chatID, text)]. *)
Definition NewMessage (chatID : Z) (text : string) : MessageConfig :=
  {| ToChat := chatID; ReplyToMessageID := 0; Text := text |}.

(** ** Log lines *)

Inductive Level : Type := DebugLevel | InfoLevel | WarnLevel | ErrorLevel.

Inductive Arg : Type :=
  | AInt (n : Z)
  | AStr (s : string)
  | AErr (e : error).

(** One call to logrus: level, format string and the values formatted into
    it (or attached as fields). *)
Record Entry : Type := mkEntry {
  level : Level;
  format : string;
  args : list Arg }.

#[global] Instance Level_eq_dec : EqDecision Level.
Proof. solve_decision. Defined.
#[global] Instance Arg_eq_dec : EqDecision Arg.
Proof. solve_decision. Defined.
#[global] Instance Entry_eq_dec : EqDecision Entry.
Proof. solve_decision. Defined.

(** ** The tables *)

(** A row of [tg_users] without its key: the table is a finite map from
    [user_id], its INTEGER PRIMARY KEY, to the other columns. *)
Record UserRow : Type := mkUserRow {
  username : string;
  first_name : string;
  last_name : string;
  registered_at : Time }.

(** A row of [events]. *)
Record EventRow : Type := mkEventRow {
  id : Z;
  name : string;
  description : string;
  created_at : Time }.

Record Tables : Type := mkTables {
  tg_users : gmap Z UserRow;
  events : list EventRow;          (* in insertion order *)
  events_seq : Z }.                (* largest id handed out by AUTOINCREMENT *)

(** ** The world and its monad *)

Record World : Type := mkWorld {
  store : Tables;
  journal : list Entry;                              (* oldest first *)
  outbox : list (MessageConfig * option error) }.    (* every Send and its result, oldest first *)

Definition M (A : Type) : Type := World → A * World.

Definition ret {A} (a : A) : M A := λ w, (a, w).

Definition bind {A B} (c : M A) (k : A → M B) : M B :=
  λ w, let (a, w') := c w in k a w'.

Notation "'do' x <- c ; k" := (bind c (λ x, k))
  (at level 10, x name, c at level 100, k at level 200).
Notation "'run' c ; k" := (bind c (λ _, k))
  (at level 10, c at level 100, k at level 200).

Definition get_store : M Tables := λ w, (store w, w).

Definition put_store (t : Tables) : M unit :=
  λ w, (tt, {| store := t; journal := journal w; outbox := outbox w |}).

Definition log (l : Level) (fmt : string) (xs : list Arg) : M unit :=
  λ w, (tt, {| store := store w;
               journal := journal w ++ [mkEntry l fmt xs];
               outbox := outbox w |}).

(** [bot.botApi.Send(msg)]: the message is handed to the platform, whose
    answer [res] comes back as the error result. *)
Definition Send (res : option error) (msg : MessageConfig) : M (option error) :=
  λ w, (res, {| store := store w;
                journal := journal w;
                outbox := outbox w ++ [(msg, res)] |}).

(** ** Package database *)

Module database.

(** *** The statements

    A statement that changes the tables either fails on a constraint or
    yields the new tables and the number of rows it affected. *)
Definition Stmt : Type := Tables → error + Tables * Z.

Definition set_tg_users (t : Tables) (u : gmap Z UserRow) : Tables :=
  {| tg_users := u; events := events t; events_seq := events_seq t |}.

(** [INSERT INTO tg_users (user_id, username, first_name, last_name)
    VALUES (?, ?, ?, ?)]; [created_at] defaults to CURRENT_TIMESTAMP and
    [user_id] is the primary key. *)
Definition insert_tg_users (now : Time) (user_id : Z) (un fn ln : string) : Stmt :=
  λ t, match tg_users t !! user_id with
       | Some _ => inl ErrConstraint
       | None =>
           inr (set_tg_users t (<[user_id := mkUserRow un fn ln now]> (tg_users t)), 1)
       end.

(** [DELETE FROM tg_users WHERE user_id = ?]. *)
Definition delete_tg_users (user_id : Z) : Stmt :=
  λ t, inr (set_tg_users t (delete user_id (tg_users t)),
            match tg_users t !! user_id with Some _ => 1 | None => 0 end).

(** [SELECT user_id FROM tg_users]: [user_id] is the INTEGER PRIMARY KEY
    and so the rowid of the table, which is scanned in the order of the
    rowid: the identities come in ascending order. *)
Definition select_user_ids (t : Tables) : list Z :=
  merge_sort Z.le (map_to_list (tg_users t)).*1.

(** [SELECT EXISTS(SELECT 1 FROM tg_users WHERE user_id = ?)]. *)
Definition select_exists (user_id : Z) (t : Tables) : bool :=
  bool_decide (is_Some (tg_users t !! user_id)).

(** *** database/sql *)

(** [db.sql.Exec(stmt)]: the affected-row count and the error. *)
Definition Exec (drv : Driver) (stmt : Stmt) : M (Z * option error) :=
  match drv with
  | Faults e => ret (0, Some e)
  | Executes =>
      do t <- get_store;
      match stmt t with
      | inl e => ret (0, Some e)
      | inr (t', n) => run put_store t'; ret (n, None)
      end
  end.

(** [db.sql.Query(q)] and [db.sql.QueryRow(q).Scan(..)]: the result of the
    query, or the error. *)
Definition Query {A} (drv : Driver) (q : Tables → A) : M (error + A) :=
  match drv with
  | Faults e => ret (inl e)
  | Executes => do t <- get_store; ret (inr (q t))
  end.

(** [db.sql.Query(q)] followed by the loop over [rows.Next()]: the error of
    the query, or the rows that the loop receives together with what
    [rows.Err()] holds when the loop has ended. *)
Definition QueryRows {A} (rows : Rows) (q : Tables → list A)
  : M (error + list A * option error) :=
  match rows with
  | Refuses e => ret (inl e)
  | Delivers => do t <- get_store; ret (inr (q t, None))
  | Breaks n e => do t <- get_store; ret (inr (take n (q t), Some e))
  end.

(** *** The exported operations on subscribers *)

Definition StoreUserInfo (drv : Driver) (now : Time) (message : Message)
  : M (option error) :=
  do r <- Exec drv (insert_tg_users now (UserID (From message))
                      (UserName (From message)) (FirstName (From message))
                      (LastName (From message)));
  ret r.2.

(** The scan of an INTEGER PRIMARY KEY column into an [int64] does not
    fail, so the error branch of the loop body is never taken.  The function
    returns when [rows.Next] answers false and does not read [rows.Err]: a
    failure of the stepping ends the loop like the last row does, and the
    rows received so far are returned with a nil error. *)
Definition GetAllUsers (rows : Rows) : M (list Z * option error) :=
  do r <- QueryRows rows select_user_ids;
  match r with
  | inl err =>
      run log ErrorLevel "Failed to get all users: %s" [AErr err];
      ret ([], Some err)
  | inr (users, _) => ret (users, None)
  end.

Definition UserExists (drv : Driver) (userID : Z) : M bool :=
  do r <- Query drv (select_exists userID);
  match r with
  | inl err =>
      run log ErrorLevel "Failed to check if user exists: %s" [AErr err];
      ret false
  | inr exists_ => ret exists_
  end.

Definition RemoveUserInfo (drv : Driver) (userID : Z) : M (option error) :=
  do r <- Exec drv (delete_tg_users userID);
  ret r.2.

(** *** The operations on events

    [telegrambot.Storage] declares [UpdateEvent], [NewEvent] and
    [GetLatestEventDateTime]; the package as given creates the [events]
    table and has no body for the three. *)

Definition set_events (t : Tables) (ev : list EventRow) (seq : Z) : Tables :=
  {| tg_users := tg_users t; events := ev; events_seq := seq |}.

Definition named (n : string) (r : EventRow) : bool := String.eqb (name r) n.

(** Modelled from the spec: the update-by-name half of [recordEvent], whose
    body is missing.  Every row with the given name gets the new description
    and the current time ([refreshed]); the count of the statement is the
    number of such rows. *)
Definition refreshed (now : Time) (eventType event : string)
    (rows : list EventRow) : list EventRow :=
  map (λ r, if named eventType r then mkEventRow (id r) (name r) event now else r)
      rows.

(** Modelled from the spec: the statement of the update-by-name. *)
Definition update_events (now : Time) (eventType event : string) : Stmt :=
  λ t, inr (set_events t (refreshed now eventType event (events t)) (events_seq t),
            Z.of_nat (length (filter (λ r, named eventType r = true) (events t)))).

(** Modelled from the spec: the insert half of [recordEvent], whose body is
    missing.  The new row takes the next AUTOINCREMENT id and the current
    time. *)
Definition insert_events (now : Time) (eventType event : string) : Stmt :=
  λ t, inr (set_events t
              (events t ++ [mkEventRow (events_seq t + 1) eventType event now])
              (events_seq t + 1),
            1).

(** Modelled from the spec: the query behind [latestEventTime], whose body
    is missing: the largest timestamp among the rows with the given name,
    if there is such a row. *)
Definition select_latest (eventType : string) (t : Tables) : option Time :=
  foldr (λ r acc, if named eventType r
                  then Some (match acc with
                             | Some m => Z.max (created_at r) m
                             | None => created_at r
                             end)
                  else acc)
        None (events t).

(** Modelled from the spec: [UpdateEvent], missing from the package.  The
    caller falls back to the insert when no row was affected, and it learns
    that from the error alone, so an update that affects no row reports
    [NotFound]. *)
Definition UpdateEvent (drv : Driver) (now : Time) (eventType event : string)
  : M (option error) :=
  do r <- Exec drv (update_events now eventType event);
  match r.2 with
  | Some err => ret (Some err)
  | None => if Z.eqb r.1 0 then ret (Some NotFound) else ret None
  end.

(** Modelled from the spec: [NewEvent], missing from the package. *)
Definition NewEvent (drv : Driver) (now : Time) (eventType event : string)
  : M (option error) :=
  do r <- Exec drv (insert_events now eventType event);
  ret r.2.

(** Modelled from the spec: [GetLatestEventDateTime], missing from the
    package; it fails with [NotFound] when no event has the name.  With an
    error the time is Go's zero value. *)
Definition GetLatestEventDateTime (drv : Driver) (eventType : string)
  : M (Time * option error) :=
  do r <- Query drv (select_latest eventType);
  match r with
  | inl err => ret (0, Some err)
  | inr None => ret (0, Some NotFound)
  | inr (Some dateTime) => ret (dateTime, None)
  end.

End database.

(** ** Package telegrambot *)

Module telegrambot.

(** The [Storage] interface.  Beside the arguments of the Go method, an
    operation takes what its run depends on in the surroundings: the
    driver's answer to its statement and, where a row is stamped, the
    clock. *)
Class Storage : Type := {
  UpdateEvent : Driver → Time → string → string → M (option error);
  NewEvent : Driver → Time → string → string → M (option error);
  StoreUserInfo : Driver → Time → Message → M (option error);
  UserExists : Driver → Z → M bool;
  RemoveUserInfo : Driver → Z → M (option error);
  GetAllUsers : Rows → M (list Z * option error);
  GetLatestEventDateTime : Driver → string → M (Time * option error) }.

(** The fields of [ElectroBot] that the handlers read.  [db] is the
    [Storage] in the context of the functions below; what [botApi] sends
    goes to the outbox of the world. *)
Record ElectroBot : Type := mkElectroBot {
  launchTime : Time;
  lastShutdownTime : Time }.

(** What the surroundings do while the bot handles one event: the driver's
    answer to each statement the handlers can issue, the clock, and the
    platform's answer to a message. *)
Record Env : Type := mkEnv {
  on_exists : Driver;       (* the query of UserExists *)
  on_store : Driver;        (* the insert of StoreUserInfo *)
  on_remove : Driver;       (* the delete of RemoveUserInfo *)
  on_list : Rows;           (* the query of GetAllUsers and its stepping *)
  on_update : Driver;       (* the update of UpdateEvent *)
  on_insert : Driver;       (* the insert of NewEvent *)
  on_latest : Driver;       (* the query of GetLatestEventDateTime *)
  now : Time;
  net : MessageConfig → option error }.

(** Nothing goes wrong: every statement is executed, every message is
    accepted. *)
Definition calm (t : Time) : Env :=
  mkEnv Executes Executes Executes Executes Executes Executes Executes t (λ _, None).

Definition LF : string := String (Ascii.ascii_of_nat 10) "".

Section Bot.

Context {db : Storage}.

(** [t.Local().Format(layout)] of package time, for the one layout the
    program uses. *)
Variable Format : Time → string.

Definition getLastAliveTime (env : Env) : M (Time * option error) :=
  GetLatestEventDateTime (on_latest env) "Bot is alive".

(** The range loop of [notifyAllUsers]. *)
Fixpoint notifyEach (env : Env) (text : string) (users : list Z) : M unit :=
  match users with
  | [] => ret tt
  | user :: rest =>
      run log DebugLevel "Notifying user on start" [AInt user];
      let msg := NewMessage user text in
      do err <- Send (net env msg) msg;
      run match err with
          | Some err => log ErrorLevel "Failed to send message to user %d: %s"
                            [AInt user; AErr err]
          | None => ret tt
          end;
      notifyEach env text rest
  end.

Definition bootText (bot : ElectroBot) : string :=
  "Bot started at " +:+ Format (launchTime bot) +:+
  LF +:+ "Last alive time: " +:+ Format (lastShutdownTime bot).

Definition notifyAllUsers (env : Env) (bot : ElectroBot) : M (option error) :=
  let text := bootText bot in
  do r <- GetAllUsers (on_list env);
  match r.2 with
  | Some err =>
      run log ErrorLevel "Failed to get all users: %s" [AErr err];
      ret (Some err)
  | None =>
      run notifyEach env text r.1;
      ret None
  end.

Definition handleLastShutdownCommand (bot : ElectroBot) : string :=
  "Last shutdown time is " +:+ Format (lastShutdownTime bot).

Definition handleStartCommand (env : Env) (userID : Z) (messageBody : Message)
  : M string :=
  do exists_ <- UserExists (on_exists env) userID;
  if exists_ : bool then ret "You're already registered"
  else
    do err <- StoreUserInfo (on_store env) (now env) messageBody;
    match err with
    | Some err =>
        run log ErrorLevel "Failed to store user info: %s" [AErr err];
        ret "Failed to register you. Please try again later"
    | None => ret "You've been successfully registered"
    end.

Definition handleStopCommand (env : Env) (userID : Z) : M string :=
  do err <- RemoveUserInfo (on_remove env) userID;
  match err with
  | Some err =>
      run log ErrorLevel "Failed to remove user info: %s" [AErr err];
      ret "Failed to unregister you. Please try again later"
  | None => ret "You've been successfully unregistered"
  end.

Definition handleHelpCommand : string :=
  "Type /start to get started" +:+
  LF +:+ "Type /stop to stop receiving notifications" +:+
  LF +:+ "Type /lastshutdown to get the last shutdown time".

Definition setText (msg : MessageConfig) (text : string) : MessageConfig :=
  {| ToChat := ToChat msg; ReplyToMessageID := ReplyToMessageID msg; Text := text |}.

Definition setReplyTo (msg : MessageConfig) (mid : Z) : MessageConfig :=
  {| ToChat := ToChat msg; ReplyToMessageID := mid; Text := Text msg |}.

(** The [switch] assigns [msg.Text] in every clause but the one of
    ["help"], which is empty: a Go clause does not fall through to the
    next one, so there the text stays as [NewMessage] made it. *)
Definition handleTGMessageCommand (env : Env) (bot : ElectroBot)
    (updateMessage : Message) : M unit :=
  run log InfoLevel "Got a new message" [AInt (ChatID (InChat updateMessage))];
  let msg := NewMessage (ChatID (InChat updateMessage)) "" in
  let msg := setReplyTo msg (MessageID updateMessage) in
  do msg <-
    (if String.eqb (Command updateMessage) "lastshutdown" then
       ret (setText msg (handleLastShutdownCommand bot))
     else if String.eqb (Command updateMessage) "start" then
       do text <- handleStartCommand env (ChatID (InChat updateMessage)) updateMessage;
       ret (setText msg text)
     else if String.eqb (Command updateMessage) "stop" then
       do text <- handleStopCommand env (ChatID (InChat updateMessage));
       ret (setText msg text)
     else if String.eqb (Command updateMessage) "help" then
       ret msg
     else
       ret (setText msg handleHelpCommand));
  do err <- Send (net env msg) msg;
  match err with
  | Some err => log ErrorLevel "Failed to send message: %s" [AErr err]
  | None => ret tt
  end.

Definition updateIsAliveState (env : Env) : M unit :=
  run log DebugLevel "Bot is alive" [];
  do err <- UpdateEvent (on_update env) (now env) "Bot is alive" "Bot is alive";
  match err with
  | None => ret tt
  | Some _ =>
      do err <- NewEvent (on_insert env) (now env) "Bot is alive" "Bot is alive";
      match err with
      | Some err => log ErrorLevel "Failed to store event due to DB error: %s" [AErr err]
      | None => ret tt
      end
  end.

(** What one [select] of the loop receives.  Which of the ready channels
    it takes is the runtime's choice. *)
Inductive Selected : Type :=
  | Tick                                  (* <-updateStateTicker.C *)
  | Update (message : option Message)     (* <-bot.updateChannel *)
  | Done.                                 (* <-ctx.Done() *)

(** The [for] loop of [handler], over the receptions of its selects, each
    with the surroundings of its handling.  The result says whether the
    function returned; with [false] it waits in the next select. *)
Fixpoint handlerLoop (bot : ElectroBot) (sched : list (Selected * Env)) : M bool :=
  match sched with
  | [] => ret false
  | (Tick, env) :: rest =>
      run updateIsAliveState env;
      handlerLoop bot rest
  | (Update None, _) :: rest => handlerLoop bot rest
  | (Update (Some message), env) :: rest =>
      run (if IsCommand message then handleTGMessageCommand env bot message
           else ret tt);
      handlerLoop bot rest
  | (Done, _) :: _ =>
      run log InfoLevel "Stopping bot" [];
      ret true
  end.

Definition handler (env : Env) (bot : ElectroBot) (sched : list (Selected * Env))
  : M bool :=
  run log InfoLevel "Bot was has been started" [AStr (Format (lastShutdownTime bot))];
  run updateIsAliveState env;
  handlerLoop bot sched.

(** [New] up to the start of the handler goroutine: [auth] is the result
    of [botApi.NewBotAPI], [launch] the clock at the first statement. *)
Definition New (auth : option error) (launch : Time) (env : Env)
  : M (option ElectroBot * option error) :=
  match auth with
  | Some err => ret (None, Some err)
  | None =>
      do r <- getLastAliveTime env;
      do last <- match r.2 with
                 | Some err =>
                     run log WarnLevel "Failed to get last alive time: %s" [AErr err];
                     ret (now env)
                 | None => ret r.1
                 end;
      let bot := mkElectroBot launch last in
      do err <- notifyAllUsers env bot;
      match err with
      | Some err =>
          run log ErrorLevel "Failed to notify all users on start: %s" [AErr err];
          ret (None, Some err)
      | None => ret (Some bot, None)
      end
  end.

End Bot.

(** The storage of the program: main hands the value made by
    [database.New] to [telegrambot.New]. *)
#[global] Instance sqlite : Storage := {|
  UpdateEvent := database.UpdateEvent;
  NewEvent := database.NewEvent;
  StoreUserInfo := database.StoreUserInfo;
  UserExists := database.UserExists;
  RemoveUserInfo := database.RemoveUserInfo;
  GetAllUsers := database.GetAllUsers;
  GetLatestEventDateTime := database.GetLatestEventDateTime |}.

End telegrambot.

(** ** Package telegrambot, the earlier revision

    The source holds a second, earlier [telegrambot]: a [Storage] of the four
    subscriber operations and a [New] that greets the subscribers and then
    serves the updates itself until their channel is closed. *)

Module telegrambot0.

Import telegrambot (Env, on_exists, on_store, on_remove, on_list, now, net).

Class Storage : Type := {
  StoreUserInfo : Driver → Time → Message → M (option error);
  UserExists : Driver → Z → M bool;
  RemoveUserInfo : Driver → Z → M (option error);
  GetAllUsers : Rows → M (list Z * option error) }.

Section Bot.

Context {db : Storage}.

(** The first range loop of [New]; the result of [Send] is dropped. *)
Fixpoint greetEach (env : Env) (users : list Z) : M unit :=
  match users with
  | [] => ret tt
  | user :: rest =>
      run log InfoLevel "User" [AInt user];
      let msg := NewMessage user "Bot started" in
      run Send (net env msg) msg;
      greetEach env rest
  end.

(** One turn of the second range loop of [New], for an update with a
    message.  (The log line has the text of the message as a third field,
    which [Message] does not carry.) *)
Definition serve (env : Env) (message : Message) : M unit :=
  run log InfoLevel "Got a message"
        [AStr (UserName (From message)); AInt (UserID (From message))];
  let msg := NewMessage (ChatID (InChat message)) "" in
  do text <-
    (if String.eqb (Command message) "start" then
       do exists_ <- UserExists (on_exists env) (UserID (From message));
       if exists_ : bool then ret "You're already registered"
       else
         do err <- StoreUserInfo (on_store env) (now env) message;
         match err with
         | Some err =>
             run log ErrorLevel "Failed to store user info: %s" [AErr err];
             ret "Failed to register you. Please try again later"
         | None => ret "You've been successfully registered"
         end
     else if String.eqb (Command message) "stop" then
       do err <- RemoveUserInfo (on_remove env) (UserID (From message));
       match err with
       | Some err =>
           run log ErrorLevel "Failed to remove user info: %s" [AErr err];
           ret "Failed to unregister you. Please try again later"
       | None => ret "You've been successfully unregistered"
       end
     else if String.eqb (Command message) "help" then
       ret "Type /start to get started"
     else
       ret "I can handle only commands. Use /help to get help");
  let msg := mkMessageConfig (ToChat msg) (MessageID message) text in
  run Send (net env msg) msg;
  ret tt.

(** The second range loop of [New], over what the channel of updates
    delivers until it is closed. *)
Fixpoint serveEach (updates : list (option Message * Env)) : M unit :=
  match updates with
  | [] => ret tt
  | (None, _) :: rest => serveEach rest
  | (Some message, env) :: rest => run serve env message; serveEach rest
  end.

(** [New]: [auth] is the result of [tgbotapi.NewBotAPI] and [account] the
    user name of the bot it reports. *)
Definition New (auth : option error) (account : string) (env : Env)
    (updates : list (option Message * Env)) : M (option error) :=
  match auth with
  | Some err => ret (Some err)
  | None =>
      run log DebugLevel "Authorized on account " [AStr account];
      do r <- GetAllUsers (on_list env);
      match r.2 with
      | Some err =>
          run log ErrorLevel "Failed to get all users: %s" [AErr err];
          ret (Some err)
      | None =>
          run greetEach env r.1;
          run serveEach updates;
          ret None
      end
  end.

End Bot.

#[global] Instance sqlite : Storage := {|
  StoreUserInfo := database.StoreUserInfo;
  UserExists := database.UserExists;
  RemoveUserInfo := database.RemoveUserInfo;
  GetAllUsers := database.GetAllUsers |}.

End telegrambot0.

(** ** Observations on a world *)

(** The identity has a row in [tg_users]. *)
Definition registered (w : World) (i : Z) : Prop :=
  is_Some (tg_users (store w) !! i).

#[global] Instance registered_dec (w : World) (i : Z) : Decision (registered w i).
Proof. unfold registered. apply _. Defined.

(** The number of rows of [tg_users]. *)
Definition subscribers (w : World) : nat := size (tg_users (store w)).

(** The rows of [events] with the given name, and their number. *)
Definition rows_named (n : string) (w : World) : list EventRow :=
  filter (λ r, database.named n r = true) (events (store w)).

Definition alive_rows (w : World) : nat := length (rows_named "Bot is alive" w).

(** The messages handed to [Send] between two worlds of one run. *)
Definition sent_since (w w' : World) : list (MessageConfig * option error) :=
  drop (length (outbox w)) (outbox w').

(** The log lines written between two worlds of one run. *)
Definition logged_since (w w' : World) : list Entry :=
  drop (length (journal w)) (journal w').

(** What [handleTGMessageCommand] does with the text its switch produced:
    it sends the reply to the chat of the message, threaded under it, and
    logs a failure of the send. *)
Definition replies (env : telegrambot.Env) (m : Message) (text : string) (w : World) : World :=
  let msg := mkMessageConfig (ChatID (InChat m)) (MessageID m) text in
  mkWorld (store w)
    (journal w ++
       match telegrambot.net env msg with
       | Some err => [mkEntry ErrorLevel "Failed to send message: %s" [AErr err]]
       | None => []
       end)
    (outbox w ++ [(msg, telegrambot.net env msg)]).

(** The world after the log line with which [handleTGMessageCommand]
    starts. *)
Definition arrival (m : Message) (w : World) : World :=
  mkWorld (store w)
    (journal w ++ [mkEntry InfoLevel "Got a new message" [AInt (ChatID (InChat m))]])
    (outbox w).

(** The log lines of one turn of the notification loop. *)
Definition noticeLines (env : telegrambot.Env) (text : string) (user : Z) : list Entry :=
  mkEntry DebugLevel "Notifying user on start" [AInt user] ::
  match telegrambot.net env (mkMessageConfig user 0 text) with
  | Some err =>
      [mkEntry ErrorLevel "Failed to send message to user %d: %s" [AInt user; AErr err]]
  | None => []
  end.

(** What the loop of [handler] passes over: an update without a message
    and a message that is not a command. *)
Definition ignorable (s : telegrambot.Selected) : bool :=
  match s with
  | telegrambot.Update None => true
  | telegrambot.Update (Some message) => negb (IsCommand message)
  | _ => false
  end.

(** * Theorems *)

(** ** The monad and database/sql *)

Lemma world_eta (w : World) : mkWorld (store w) (journal w) (outbox w) = w.
Proof. by destruct w. Qed.

Lemma tables_eta (t : Tables) : mkTables (tg_users t) (events t) (events_seq t) = t.
Proof. by destruct t. Qed.

Lemma Exec_executes (stmt : database.Stmt) (w : World) :
  database.Exec Executes stmt w =
  match stmt (store w) with
  | inl e => ((0, Some e), w)
  | inr (t', n) => ((n, None), mkWorld t' (journal w) (outbox w))
  end.
Proof.
  unfold database.Exec, bind, get_store, put_store, ret.
  destruct (stmt (store w)) as [e|[t' n]]; reflexivity.
Qed.

Lemma Exec_faults (e : error) (stmt : database.Stmt) (w : World) :
  database.Exec (Faults e) stmt w = ((0, Some e), w).
Proof. reflexivity. Qed.

Lemma Query_executes {A} (q : Tables → A) (w : World) :
  database.Query Executes q w = (inr (q (store w)), w).
Proof. reflexivity. Qed.

Lemma Query_faults {A} (e : error) (q : Tables → A) (w : World) :
  database.Query (Faults e) q w = (inl e, w).
Proof. reflexivity. Qed.

(** ** The registry *)

Lemma UserExists_executes (userID : Z) (w : World) :
  database.UserExists Executes userID w =
  (bool_decide (registered w userID), w).
Proof. reflexivity. Qed.

Lemma UserExists_faults (e : error) (userID : Z) (w : World) :
  database.UserExists (Faults e) userID w =
  (false,
   mkWorld (store w)
     (journal w ++ [mkEntry ErrorLevel "Failed to check if user exists: %s" [AErr e]])
     (outbox w)).
Proof. reflexivity. Qed.

Lemma GetAllUsers_executes (w : World) :
  database.GetAllUsers Executes w = ((database.select_user_ids (store w), None), w).
Proof. reflexivity. Qed.

Lemma elem_of_select_user_ids (i : Z) (t : Tables) :
  i ∈ database.select_user_ids t ↔ is_Some (tg_users t !! i).
Proof.
  unfold database.select_user_ids.
  rewrite merge_sort_Permutation, list_elem_of_fmap. split.
  - intros [[k r] [-> Hin]]. apply elem_of_map_to_list in Hin. by exists r.
  - intros [r Hr]. exists (i, r). split; [done|]. by apply elem_of_map_to_list.
Qed.

Lemma StoreUserInfo_executes (now : Time) (message : Message) (w : World) :
  database.StoreUserInfo Executes now message w =
  match tg_users (store w) !! UserID (From message) with
  | Some _ => (Some ErrConstraint, w)
  | None =>
      (None,
       mkWorld
         (database.set_tg_users (store w)
            (<[UserID (From message) :=
                 mkUserRow (UserName (From message)) (FirstName (From message))
                   (LastName (From message)) now]> (tg_users (store w))))
         (journal w) (outbox w))
  end.
Proof.
  unfold database.StoreUserInfo, bind. rewrite Exec_executes.
  unfold database.insert_tg_users.
  by destruct (tg_users (store w) !! UserID (From message)).
Qed.

Lemma StoreUserInfo_faults (e : error) (now : Time) (message : Message) (w : World) :
  database.StoreUserInfo (Faults e) now message w = (Some e, w).
Proof. reflexivity. Qed.

Lemma RemoveUserInfo_executes (userID : Z) (w : World) :
  database.RemoveUserInfo Executes userID w =
  (None,
   mkWorld (database.set_tg_users (store w) (delete userID (tg_users (store w))))
     (journal w) (outbox w)).
Proof. unfold database.RemoveUserInfo, bind. by rewrite Exec_executes. Qed.

Lemma RemoveUserInfo_faults (e : error) (userID : Z) (w : World) :
  database.RemoveUserInfo (Faults e) userID w = (Some e, w).
Proof. reflexivity. Qed.

(** The error of [RemoveUserInfo] is the driver's: the statement has no
    failure of its own. *)
Lemma RemoveUserInfo_error (drv : Driver) (userID : Z) (w : World) :
  (database.RemoveUserInfo drv userID w).1 =
  match drv with Executes => None | Faults e => Some e end.
Proof. destruct drv; [by rewrite RemoveUserInfo_executes | reflexivity]. Qed.

(** C4: [RemoveUserInfo] is idempotent.  When the identity has no row the
    call returns no error and leaves the world, and so the registry, as it
    was; a second removal right after a first one returns no error and
    changes nothing more.  The only error the call can return is the
    driver's, and then too the world is as it was. *)
Theorem RemoveUserInfo_idempotent (w : World) (userID : Z) :
  (¬ registered w userID →
   database.RemoveUserInfo Executes userID w = (None, w)) ∧
  (let w1 := (database.RemoveUserInfo Executes userID w).2 in
   ¬ registered w1 userID ∧
   database.RemoveUserInfo Executes userID w1 = (None, w1)) ∧
  (∀ e : error, database.RemoveUserInfo (Faults e) userID w = (Some e, w)).
Proof.
  rewrite (and_assoc _ _ (∀ e : error, _)). split; [|intros e; apply RemoveUserInfo_faults].
  assert (Habsent : ∀ v : World, ¬ registered v userID →
            database.RemoveUserInfo Executes userID v = (None, v)).
  { intros v Hv. rewrite RemoveUserInfo_executes. f_equal.
    unfold registered in Hv. apply eq_None_not_Some in Hv.
    rewrite delete_id by done.
    unfold database.set_tg_users. rewrite tables_eta. apply world_eta. }
  split; [apply Habsent|].
  assert (Hgone : ¬ registered (database.RemoveUserInfo Executes userID w).2 userID).
  { rewrite RemoveUserInfo_executes. unfold registered. simpl.
    rewrite lookup_delete_eq. by intros [? ?]. }
  split; [exact Hgone | by apply Habsent].
Qed.

(** The theorem at identity 42 in the empty registry. *)
Lemma RemoveUserInfo_idempotent_witness :
  ¬ registered (mkWorld (mkTables ∅ [] 0) [] []) 42 ∧
  database.RemoveUserInfo Executes 42 (mkWorld (mkTables ∅ [] 0) [] []) =
  (None, mkWorld (mkTables ∅ [] 0) [] []).
Proof.
  assert (H : ¬ registered (mkWorld (mkTables ∅ [] 0) [] []) 42).
  { unfold registered. simpl. rewrite lookup_empty. by intros [? ?]. }
  split; [exact H|].
  exact (proj1 (RemoveUserInfo_idempotent (mkWorld (mkTables ∅ [] 0) [] []) 42) H).
Defined.

(** C6: when the query is executed, [UserExists] returns true exactly when
    the identity has a row, and it leaves the world alone; when the query
    faults, the result is a plain [false] -- the function has no error
    result through which the fault could reach the caller -- and the fault
    is written to the log. *)
Theorem UserExists_iff_row_and_false_on_fault (w : World) (userID : Z) :
  ((database.UserExists Executes userID w).1 = true ↔ registered w userID) ∧
  (database.UserExists Executes userID w).2 = w ∧
  (∀ e : error,
     database.UserExists (Faults e) userID w =
     (false,
      mkWorld (store w)
        (journal w ++ [mkEntry ErrorLevel "Failed to check if user exists: %s" [AErr e]])
        (outbox w))).
Proof.
  rewrite UserExists_executes. simpl. split; [|split].
  - apply bool_decide_eq_true.
  - reflexivity.
  - intros e. apply UserExists_faults.
Qed.

Lemma UserExists_implies_row (drv : Driver) (userID : Z) (w : World) :
  (database.UserExists drv userID w).1 = true → registered w userID.
Proof.
  destruct drv as [|e].
  - rewrite UserExists_executes. simpl. apply bool_decide_eq_true.
  - rewrite UserExists_faults. discriminate.
Qed.

Lemma GetAllUsers_only_rows (drv : Driver) (i : Z) (w : World) :
  i ∈ (database.GetAllUsers drv w).1.1 → registered w i.
Proof.
  destruct drv as [|e].
  - rewrite GetAllUsers_executes. simpl. apply elem_of_select_user_ids.
  - simpl. by intros ?%elem_of_nil.
Qed.

(** C5: the registry operations round-trip.  After a [StoreUserInfo] that
    returned no error, [UserExists] answers true for the stored identity and
    [GetAllUsers] lists it; after a [RemoveUserInfo] of that identity,
    [UserExists] answers false and [GetAllUsers] does not list it. *)
Theorem subscriber_round_trip (w : World) (drv : Driver) (now : Time)
    (message : Message) :
  let i := UserID (From message) in
  let stored := database.StoreUserInfo drv now message w in
  stored.1 = None →
  let w1 := stored.2 in
  let w2 := (database.RemoveUserInfo Executes i w1).2 in
  (database.UserExists Executes i w1).1 = true ∧
  i ∈ (database.GetAllUsers Executes w1).1.1 ∧
  (∀ drv' : Driver, (database.UserExists drv' i w2).1 = false) ∧
  (∀ drv' : Driver, i ∉ (database.GetAllUsers drv' w2).1.1).
Proof.
  intros i stored Hok w1 w2.
  assert (Hin : registered w1 i).
  { subst w1 stored. destruct drv as [|e]; [|discriminate Hok].
    rewrite StoreUserInfo_executes in Hok |- *. fold i in Hok |- *.
    destruct (tg_users (store w) !! i); [discriminate Hok|].
    unfold registered. simpl. rewrite lookup_insert_eq. by eexists. }
  assert (Hout : ¬ registered w2 i).
  { subst w2. rewrite RemoveUserInfo_executes. unfold registered. simpl.
    rewrite lookup_delete_eq. by intros [? ?]. }
  repeat split.
  - rewrite UserExists_executes. simpl. by apply bool_decide_eq_true.
  - rewrite GetAllUsers_executes. simpl. by apply elem_of_select_user_ids.
  - intros drv'. destruct (database.UserExists drv' i w2).1 eqn:E; [|done].
    by apply UserExists_implies_row in E.
  - intros drv' Hl. by apply GetAllUsers_only_rows in Hl.
Qed.

(** The round trip of identity 42 with fields u, g and f in the empty
    registry. *)
Lemma subscriber_round_trip_witness :
  let message := mkMessage 1 (mkUser 42 "u" "g" "f") (mkChat 42) true "start" in
  let w := mkWorld (mkTables ∅ [] 0) [] [] in
  let w1 := (database.StoreUserInfo Executes 0 message w).2 in
  let w2 := (database.RemoveUserInfo Executes 42 w1).2 in
  (database.UserExists Executes 42 w1).1 = true ∧
  42 ∈ (database.GetAllUsers Executes w1).1.1 ∧
  (∀ drv' : Driver, (database.UserExists drv' 42 w2).1 = false) ∧
  (∀ drv' : Driver, 42 ∉ (database.GetAllUsers drv' w2).1.1).
Proof.
  exact (subscriber_round_trip (mkWorld (mkTables ∅ [] 0) [] []) Executes 0
           (mkMessage 1 (mkUser 42 "u" "g" "f") (mkChat 42) true "start")
           eq_refl).
Defined.

(** ** The events *)

Lemma named_true (n : string) (r : EventRow) : database.named n r = true ↔ name r = n.
Proof. unfold database.named. apply String.eqb_eq. Qed.

Lemma named_false (n : string) (r : EventRow) : database.named n r = false ↔ name r ≠ n.
Proof. unfold database.named. apply String.eqb_neq. Qed.

Lemma select_latest_spec (n : string) (t : Tables) :
  match database.select_latest n t with
  | Some dateTime =>
      (∃ r, r ∈ events t ∧ name r = n ∧ created_at r = dateTime) ∧
      (∀ r, r ∈ events t → name r = n → created_at r ≤ dateTime)
  | None => ∀ r, r ∈ events t → name r ≠ n
  end.
Proof.
  unfold database.select_latest. induction (events t) as [|r l IH]; simpl.
  - intros r Hr. by apply elem_of_nil in Hr.
  - destruct (database.named n r) eqn:Hn.
    + apply named_true in Hn.
      destruct (foldr _ None l) as [m|].
      * destruct IH as [(r0 & Hr0 & Hn0 & Ht0) Hmax]. split.
        -- destruct (Z.max_spec (created_at r) m) as [[_ ->]|[_ ->]].
           ++ exists r0. by rewrite elem_of_cons; auto.
           ++ exists r. by rewrite elem_of_cons; auto.
        -- intros r' [->|Hr']%elem_of_cons Hn'; [lia|].
           specialize (Hmax r' Hr' Hn'). lia.
      * split.
        -- exists r. by rewrite elem_of_cons; auto.
        -- intros r' [->|Hr']%elem_of_cons Hn'; [lia|].
           by destruct (IH r' Hr').
    + apply named_false in Hn.
      destruct (foldr _ None l) as [m|].
      * destruct IH as [(r0 & Hr0 & Hn0 & Ht0) Hmax]. split.
        -- exists r0. by rewrite elem_of_cons; auto.
        -- intros r' [->|Hr']%elem_of_cons Hn'; [done|]. by apply Hmax.
      * intros r' [->|Hr']%elem_of_cons; [done|]. by apply IH.
Qed.

(** C8: [GetLatestEventDateTime], as modelled from the spec.  When it
    returns no error, the time it returns is the timestamp of a stored event
    with the given name and no stored event with that name is more recent;
    when no stored event has the name it fails, and [NotFound] is the only
    error of an executed query. *)
Theorem GetLatestEventDateTime_latest_or_NotFound (w : World) (eventType : string) :
  match (database.GetLatestEventDateTime Executes eventType w).1 with
  | (dateTime, None) =>
      (∃ r, r ∈ events (store w) ∧ name r = eventType ∧ created_at r = dateTime) ∧
      (∀ r, r ∈ events (store w) → name r = eventType → created_at r ≤ dateTime)
  | (_, Some err) =>
      err = NotFound ∧ ∀ r, r ∈ events (store w) → name r ≠ eventType
  end.
Proof.
  unfold database.GetLatestEventDateTime, bind. rewrite Query_executes.
  pose proof (select_latest_spec eventType (store w)) as H.
  destruct (database.select_latest eventType (store w)); simpl; [exact H|].
  by split.
Qed.

Example latest_of_three :
  (database.GetLatestEventDateTime Executes "heartbeat"
     (mkWorld (mkTables ∅ [mkEventRow 1 "heartbeat" "x" 10;
                           mkEventRow 2 "other" "y" 40;
                           mkEventRow 3 "heartbeat" "x" 30;
                           mkEventRow 4 "heartbeat" "x" 20] 4) [] [])).1
  = (30, None).
Proof. reflexivity. Qed.

Example latest_of_unknown_name :
  (database.GetLatestEventDateTime Executes "nope"
     (mkWorld (mkTables ∅ [mkEventRow 1 "heartbeat" "x" 10] 1) [] [])).1
  = (0, Some NotFound).
Proof. reflexivity. Qed.

(** ** The command handlers *)

Section Commands.

Import telegrambot.

Variable Format : Time → string.

Lemma sent_since_app (w w' : World) (l : list (MessageConfig * option error)) :
  outbox w' = outbox w ++ l → sent_since w w' = l.
Proof. unfold sent_since. intros ->. apply drop_app_length. Qed.

Lemma logged_since_app (w w' : World) (l : list Entry) :
  journal w' = journal w ++ l → logged_since w w' = l.
Proof. unfold logged_since. intros ->. apply drop_app_length. Qed.

(** [handleStartCommand] when the existence query is executed: the three
    ways it can end, by the key it is called with and the key of the
    sender. *)
Lemma handleStartCommand_known (env : Env) (userID : Z) (m : Message) (w : World) :
  on_exists env = Executes → registered w userID →
  handleStartCommand env userID m w = ("You're already registered", w).
Proof.
  intros Hex Hreg. unfold handleStartCommand, bind.
  rewrite Hex, UserExists_executes. by rewrite bool_decide_true.
Qed.

Lemma handleStartCommand_stores (env : Env) (userID : Z) (m : Message) (w : World) :
  on_exists env = Executes → ¬ registered w userID →
  on_store env = Executes → ¬ registered w (UserID (From m)) →
  handleStartCommand env userID m w =
  ("You've been successfully registered",
   mkWorld
     (database.set_tg_users (store w)
        (<[UserID (From m) :=
             mkUserRow (UserName (From m)) (FirstName (From m)) (LastName (From m))
               (now env)]> (tg_users (store w))))
     (journal w) (outbox w)).
Proof.
  intros Hex Hreg Hst Hfrom. unfold handleStartCommand, bind.
  rewrite Hex, UserExists_executes, bool_decide_false by done.
  rewrite Hst, StoreUserInfo_executes.
  apply eq_None_not_Some in Hfrom. by rewrite Hfrom.
Qed.

Lemma handleStartCommand_collides (env : Env) (userID : Z) (m : Message) (w : World) :
  on_exists env = Executes → ¬ registered w userID →
  on_store env = Executes → registered w (UserID (From m)) →
  handleStartCommand env userID m w =
  ("Failed to register you. Please try again later",
   mkWorld (store w)
     (journal w ++ [mkEntry ErrorLevel "Failed to store user info: %s" [AErr ErrConstraint]])
     (outbox w)).
Proof.
  intros Hex Hreg Hst [row Hrow]. unfold handleStartCommand, bind.
  rewrite Hex, UserExists_executes, bool_decide_false by done.
  rewrite Hst, StoreUserInfo_executes, Hrow. reflexivity.
Qed.

Lemma handleStartCommand_store_faults (env : Env) (userID : Z) (m : Message)
    (w : World) (e : error) :
  on_exists env = Executes → ¬ registered w userID →
  on_store env = Faults e →
  handleStartCommand env userID m w =
  ("Failed to register you. Please try again later",
   mkWorld (store w)
     (journal w ++ [mkEntry ErrorLevel "Failed to store user info: %s" [AErr e]])
     (outbox w)).
Proof.
  intros Hex Hreg Hst. unfold handleStartCommand, bind.
  rewrite Hex, UserExists_executes, bool_decide_false by done.
  rewrite Hst. reflexivity.
Qed.

Lemma reply_sent (env : Env) (m : Message) (text : string) (w : World) :
  (do err <- Send (net env (mkMessageConfig (ChatID (InChat m)) (MessageID m) text))
               (mkMessageConfig (ChatID (InChat m)) (MessageID m) text);
   match err with
   | Some err => log ErrorLevel "Failed to send message: %s" [AErr err]
   | None => ret tt
   end) w = (tt, replies env m text w).
Proof.
  unfold bind, Send, replies, log, ret. simpl.
  destruct (net env _); simpl; [done|]. by rewrite app_nil_r.
Qed.

Lemma handleTGMessageCommand_start (env : Env) (bot : ElectroBot) (m : Message)
    (w : World) :
  Command m = "start" →
  handleTGMessageCommand Format env bot m w =
  let r := handleStartCommand env (ChatID (InChat m)) m (arrival m w) in
  (tt, replies env m r.1 r.2).
Proof.
  intros Hc. unfold handleTGMessageCommand. rewrite Hc. simpl.
  unfold bind at 1. simpl. fold (arrival m w).
  unfold bind at 1. unfold bind at 1.
  destruct (handleStartCommand env (ChatID (InChat m)) m (arrival m w)) as [text w1].
  simpl. apply reply_sent.
Qed.

Lemma handleTGMessageCommand_stop (env : Env) (bot : ElectroBot) (m : Message)
    (w : World) :
  Command m = "stop" →
  handleTGMessageCommand Format env bot m w =
  let r := handleStopCommand env (ChatID (InChat m)) (arrival m w) in
  (tt, replies env m r.1 r.2).
Proof.
  intros Hc. unfold handleTGMessageCommand. rewrite Hc. simpl.
  unfold bind at 1. simpl. fold (arrival m w).
  unfold bind at 1. unfold bind at 1.
  destruct (handleStopCommand env (ChatID (InChat m)) (arrival m w)) as [text w1].
  simpl. apply reply_sent.
Qed.

Lemma handleTGMessageCommand_help (env : Env) (bot : ElectroBot) (m : Message)
    (w : World) :
  Command m = "help" →
  handleTGMessageCommand Format env bot m w = (tt, replies env m "" (arrival m w)).
Proof.
  intros Hc. unfold handleTGMessageCommand. rewrite Hc. simpl.
  unfold bind at 1. simpl. fold (arrival m w).
  unfold bind at 1. unfold ret at 1. apply reply_sent.
Qed.

Lemma handleTGMessageCommand_default (env : Env) (bot : ElectroBot) (m : Message)
    (w : World) :
  Command m ≠ "lastshutdown" → Command m ≠ "start" →
  Command m ≠ "stop" → Command m ≠ "help" →
  handleTGMessageCommand Format env bot m w =
  (tt, replies env m handleHelpCommand (arrival m w)).
Proof.
  intros H1 H2 H3 H4. unfold handleTGMessageCommand.
  apply String.eqb_neq in H1, H2, H3, H4. rewrite H1, H2, H3, H4.
  unfold bind at 1. simpl. fold (arrival m w).
  unfold bind at 1. unfold ret at 1. apply reply_sent.
Qed.

(** C1: a ["start"] whose sender is registered is not answered with the
    already-registered text when it arrives in a chat whose identity is not
    the sender's and has no row: the existence check looks for the chat
    identity, the insert that follows collides with the sender's row, and
    the reply is the failure text.  No row is added. *)
Theorem start_by_registered_sender_in_another_chat (env : Env) (bot : ElectroBot)
    (m : Message) (w : World) :
  Command m = "start" →
  on_exists env = Executes → on_store env = Executes →
  registered w (UserID (From m)) → ¬ registered w (ChatID (InChat m)) →
  let w' := (handleTGMessageCommand Format env bot m w).2 in
  let reply := mkMessageConfig (ChatID (InChat m)) (MessageID m)
                 "Failed to register you. Please try again later" in
  sent_since w w' = [(reply, net env reply)] ∧ store w' = store w.
Proof.
  intros Hc Hex Hst Hfrom Hchat w' reply. subst w'.
  rewrite handleTGMessageCommand_start by done.
  rewrite (handleStartCommand_collides env _ m (arrival m w)) by done.
  split; [|reflexivity]. by apply sent_since_app.
Qed.

(** In a chat whose identity is the sender's, ["start"] does what the
    dispatch scenario says: one new row and the success text for a sender
    without a row, no new row and the already-registered text for a sender
    with one. *)
Lemma start_in_private_chat (env : Env) (bot : ElectroBot) (m : Message) (w : World) :
  Command m = "start" → ChatID (InChat m) = UserID (From m) →
  on_exists env = Executes → on_store env = Executes →
  let w' := (handleTGMessageCommand Format env bot m w).2 in
  let reply text := mkMessageConfig (ChatID (InChat m)) (MessageID m) text in
  (registered w (UserID (From m)) →
   sent_since w w' = [(reply "You're already registered",
                       net env (reply "You're already registered"))] ∧
   store w' = store w) ∧
  (¬ registered w (UserID (From m)) →
   sent_since w w' = [(reply "You've been successfully registered",
                       net env (reply "You've been successfully registered"))] ∧
   registered w' (UserID (From m)) ∧
   subscribers w' = S (subscribers w)).
Proof.
  intros Hc Hid Hex Hst w' reply. subst w'.
  rewrite handleTGMessageCommand_start by done. split; intros Hreg.
  - rewrite (handleStartCommand_known env _ m (arrival m w)) by (by rewrite ?Hid).
    split; [by apply sent_since_app | reflexivity].
  - rewrite (handleStartCommand_stores env _ m (arrival m w)) by (by rewrite ?Hid).
    split; [by apply sent_since_app|]. unfold registered, subscribers. simpl. split.
    + rewrite lookup_insert_eq. by eexists.
    + apply map_size_insert_None. by apply eq_None_not_Some.
Qed.

(** A failed store adds no row and is answered with the failure text. *)
Lemma start_with_failing_store (env : Env) (bot : ElectroBot) (m : Message)
    (w : World) (e : error) :
  Command m = "start" →
  on_exists env = Executes → on_store env = Faults e →
  ¬ registered w (ChatID (InChat m)) →
  let w' := (handleTGMessageCommand Format env bot m w).2 in
  let reply := mkMessageConfig (ChatID (InChat m)) (MessageID m)
                 "Failed to register you. Please try again later" in
  sent_since w w' = [(reply, net env reply)] ∧ store w' = store w.
Proof.
  intros Hc Hex Hst Hchat w' reply. subst w'.
  rewrite handleTGMessageCommand_start by done.
  rewrite (handleStartCommand_store_faults env _ m (arrival m w) e) by done.
  split; [by apply sent_since_app | reflexivity].
Qed.

(** C3: for the command ["help"] the message handed to [Send] has the empty
    text, which is not the usage message: the clause of ["help"] in the
    switch is empty and control does not pass on to the default clause. *)
Theorem help_is_answered_with_the_empty_text (env : Env) (bot : ElectroBot)
    (m : Message) (w : World) :
  Command m = "help" →
  let w' := (handleTGMessageCommand Format env bot m w).2 in
  let reply := mkMessageConfig (ChatID (InChat m)) (MessageID m) "" in
  sent_since w w' = [(reply, net env reply)] ∧ Text reply ≠ handleHelpCommand.
Proof.
  intros Hc w' reply. subst w'.
  rewrite handleTGMessageCommand_help by done.
  split; [by apply sent_since_app | discriminate].
Qed.

(** A command that is none of the four named in the switch is answered
    with the usage message. *)
Lemma other_commands_are_answered_with_usage (env : Env) (bot : ElectroBot)
    (m : Message) (w : World) :
  Command m ≠ "lastshutdown" → Command m ≠ "start" →
  Command m ≠ "stop" → Command m ≠ "help" →
  let w' := (handleTGMessageCommand Format env bot m w).2 in
  let reply := mkMessageConfig (ChatID (InChat m)) (MessageID m) handleHelpCommand in
  sent_since w w' = [(reply, net env reply)].
Proof.
  intros H1 H2 H3 H4 w' reply. subst w'.
  rewrite handleTGMessageCommand_default by done. by apply sent_since_app.
Qed.

(** The usage message names the three commands. *)
Example usage_lists_the_commands :
  String.index 0 "/start" handleHelpCommand = Some 5%nat ∧
  String.index 0 "/stop" handleHelpCommand = Some 32%nat ∧
  String.index 0 "/lastshutdown" handleHelpCommand = Some 75%nat.
Proof. repeat split; reflexivity. Qed.

Lemma handleStopCommand_executes (env : Env) (userID : Z) (w : World) :
  on_remove env = Executes →
  handleStopCommand env userID w =
  ("You've been successfully unregistered",
   mkWorld (database.set_tg_users (store w) (delete userID (tg_users (store w))))
     (journal w) (outbox w)).
Proof.
  intros Hrm. unfold handleStopCommand, bind.
  by rewrite Hrm, RemoveUserInfo_executes.
Qed.

(** The reply to a ["start"], by what the store holds, when both statements
    are executed. *)
Lemma start_reply (env : Env) (bot : ElectroBot) (m : Message) (w : World) :
  Command m = "start" → on_exists env = Executes → on_store env = Executes →
  ∃ text,
    sent_since w (handleTGMessageCommand Format env bot m w).2 =
    [(mkMessageConfig (ChatID (InChat m)) (MessageID m) text,
      net env (mkMessageConfig (ChatID (InChat m)) (MessageID m) text))] ∧
    text =
    if decide (registered w (ChatID (InChat m)))
    then "You're already registered"
    else if decide (registered w (UserID (From m)))
         then "Failed to register you. Please try again later"
         else "You've been successfully registered".
Proof.
  intros Hc Hex Hst. rewrite handleTGMessageCommand_start by done.
  destruct (decide (registered w (ChatID (InChat m)))) as [Hchat|Hchat].
  - rewrite (handleStartCommand_known env _ m (arrival m w)) by done.
    eexists. split; [by apply sent_since_app | done].
  - destruct (decide (registered w (UserID (From m)))) as [Hfrom|Hfrom].
    + rewrite (handleStartCommand_collides env _ m (arrival m w)) by done.
      eexists. split; [by apply sent_since_app | done].
    + rewrite (handleStartCommand_stores env _ m (arrival m w)) by done.
      eexists. split; [by apply sent_since_app | done].
Qed.

(** C10: the existence check of ["start"] and the deletion of ["stop"] use
    the chat identity of the message, the registration stores the sender
    identity.  With all statements executed: ["start"] is answered with the
    already-registered text exactly when the chat identity has a row;
    ["stop"] deletes the row of the chat identity; a ["start"] without a row
    for either identity adds the row of the sender identity.  After such a
    successful ["start"], a second one is answered with the
    already-registered text when the two identities are equal; when they
    differ, the chat identity still has no row, the existence check answers
    false, the insert collides with the sender's row and the reply is the
    failure text. *)
Theorem start_checks_chat_and_stores_sender (env env' : Env) (bot : ElectroBot)
    (m : Message) (w : World) :
  Command m = "start" →
  on_exists env = Executes → on_store env = Executes →
  on_exists env' = Executes → on_store env' = Executes →
  let chat := ChatID (InChat m) in
  let sender := UserID (From m) in
  let reply text := mkMessageConfig chat (MessageID m) text in
  let w1 := (handleTGMessageCommand Format env bot m w).2 in
  let w2 := (handleTGMessageCommand Format env' bot m w1).2 in
  (sent_since w w1 = [(reply "You're already registered",
                       net env (reply "You're already registered"))]
   ↔ registered w chat) ∧
  (∀ (stop : Message) (v : World),
     Command stop = "stop" → on_remove env = Executes →
     tg_users (store (handleTGMessageCommand Format env bot stop v).2) =
     delete (ChatID (InChat stop)) (tg_users (store v))) ∧
  (¬ registered w chat → ¬ registered w sender →
   sent_since w w1 = [(reply "You've been successfully registered",
                       net env (reply "You've been successfully registered"))] ∧
   tg_users (store w1) =
   <[sender := mkUserRow (UserName (From m)) (FirstName (From m))
                 (LastName (From m)) (now env)]> (tg_users (store w)) ∧
   (chat = sender →
    sent_since w1 w2 = [(reply "You're already registered",
                         net env' (reply "You're already registered"))]) ∧
   (chat ≠ sender →
    ¬ registered w1 chat ∧
    (database.UserExists Executes chat w1).1 = false ∧
    sent_since w1 w2 = [(reply "Failed to register you. Please try again later",
                         net env' (reply "Failed to register you. Please try again later"))] ∧
    store w2 = store w1)).
Proof.
  intros Hc Hex Hst Hex' Hst' chat sender reply w1 w2. split; [|split].
  - destruct (start_reply env bot m w Hc Hex Hst) as (text & Hsent & Htext).
    fold w1 chat in Hsent. fold chat sender in Htext. rewrite Hsent. split.
    + intros Heq. destruct (decide (registered w chat)) as [|Hn]; [done|].
      exfalso. injection Heq as Heq _. rewrite Htext in Heq.
      destruct (decide (registered w sender)); discriminate Heq.
    + intros Hreg. rewrite decide_True in Htext by done. by rewrite Htext.
  - intros stop v Hcs Hrm. rewrite handleTGMessageCommand_stop by done.
    by rewrite (handleStopCommand_executes env _ (arrival stop v)).
  - intros Hchat Hfrom.
    assert (Hw1 : w1 = replies env m "You've been successfully registered"
              (mkWorld
                 (database.set_tg_users (store w)
                    (<[sender := mkUserRow (UserName (From m)) (FirstName (From m))
                                   (LastName (From m)) (now env)]> (tg_users (store w))))
                 (journal (arrival m w)) (outbox w))).
    { subst w1. rewrite handleTGMessageCommand_start by done.
      by rewrite (handleStartCommand_stores env _ m (arrival m w)). }
    assert (Hsender : registered w1 sender).
    { rewrite Hw1. unfold registered. simpl. rewrite lookup_insert_eq. by eexists. }
    split; [rewrite Hw1; by apply sent_since_app|].
    split; [by rewrite Hw1|]. split.
    + intros Heq. subst w2. rewrite handleTGMessageCommand_start by done.
      rewrite (handleStartCommand_known env' _ m (arrival m w1)).
      * by apply sent_since_app.
      * done.
      * fold chat. by rewrite Heq.
    + intros Hne.
      assert (Hnochat : ¬ registered w1 chat).
      { rewrite Hw1. unfold registered. simpl. by rewrite lookup_insert_ne. }
      split; [done|]. split.
      { rewrite UserExists_executes. simpl. by apply bool_decide_eq_false. }
      subst w2. rewrite handleTGMessageCommand_start by done.
      rewrite (handleStartCommand_collides env' _ m (arrival m w1)) by done.
      split; [by apply sent_since_app | reflexivity].
Qed.

End Commands.

(** ** The boot notification *)

(** [GetAllUsers] by what the driver does with the query. *)
Lemma GetAllUsers_by_rows (rows : Rows) (w : World) :
  database.GetAllUsers rows w =
  match rows with
  | Delivers => ((database.select_user_ids (store w), None), w)
  | Refuses e =>
      (([], Some e),
       mkWorld (store w)
         (journal w ++ [mkEntry ErrorLevel "Failed to get all users: %s" [AErr e]])
         (outbox w))
  | Breaks n e => ((take n (database.select_user_ids (store w)), None), w)
  end.
Proof. by destruct rows. Qed.

(** A list that comes without an error comes without a change. *)
Lemma GetAllUsers_listed (rows : Rows) (w : World) :
  (database.GetAllUsers rows w).1.2 = None →
  database.GetAllUsers rows w = (((database.GetAllUsers rows w).1.1, None), w).
Proof. rewrite GetAllUsers_by_rows. by destruct rows. Qed.

Section Boot.

Import telegrambot.

Variable Format : Time → string.

Lemma notifyEach_spec (env : Env) (text : string) (users : list Z) (w : World) :
  notifyEach env text users w =
  (tt,
   mkWorld (store w)
     (journal w ++ flat_map (noticeLines env text) users)
     (outbox w ++ map (λ user, (mkMessageConfig user 0 text,
                                net env (mkMessageConfig user 0 text)))
                      users)).
Proof.
  revert w. induction users as [|user rest IH]; intros w; simpl.
  - unfold ret. by rewrite !app_nil_r, world_eta.
  - unfold bind at 1. simpl. unfold bind at 1. simpl.
    unfold bind at 1, noticeLines, NewMessage.
    destruct (net env (mkMessageConfig user 0 text)) as [err|]; simpl;
      rewrite IH; simpl; by rewrite <- !app_assoc.
Qed.

Lemma notifyAllUsers_listed (env : Env) (bot : ElectroBot) (w : World) :
  (database.GetAllUsers (on_list env) w).1.2 = None →
  notifyAllUsers Format env bot w =
  (None,
   mkWorld (store w)
     (journal w ++ flat_map (noticeLines env (bootText Format bot))
                            (database.GetAllUsers (on_list env) w).1.1)
     (outbox w ++
      map (λ user, (mkMessageConfig user 0 (bootText Format bot),
                    net env (mkMessageConfig user 0 (bootText Format bot))))
          (database.GetAllUsers (on_list env) w).1.1)).
Proof.
  intros Hnil. unfold notifyAllUsers, bind.
  change (GetAllUsers (on_list env) w) with (database.GetAllUsers (on_list env) w).
  rewrite (GetAllUsers_listed _ _ Hnil). simpl. by rewrite notifyEach_spec.
Qed.

(** C7: the boot notification pass goes over all subscribers whatever the
    sends return.  For every list of subscribers and every assignment of
    results to the sends, the loop hands one message to [Send] for each
    subscriber of the list, in the order of the list, addressed to that
    subscriber and with the boot text; a failed send leaves one error line
    in the log, between the debug lines of the pass, and nothing else: the
    store is not touched and the pass goes on.  Whenever [GetAllUsers]
    returns a list, [notifyAllUsers] does so for every identity of that list
    and returns no error; when the list query delivers all its rows, these
    are all the identities with a row. *)
Theorem notifyAllUsers_attempts_every_send (env : Env) (bot : ElectroBot) (w : World) :
  let listed := (database.GetAllUsers (on_list env) w).1 in
  listed.2 = None →
  let text := bootText Format bot in
  let attempt user :=
    (mkMessageConfig user 0 text, net env (mkMessageConfig user 0 text)) in
  (∀ (users : list Z) (v : World),
     let v' := (notifyEach env text users v).2 in
     sent_since v v' = map attempt users ∧
     logged_since v v' = flat_map (noticeLines env text) users ∧
     store v' = store v) ∧
  (let r := notifyAllUsers Format env bot w in
   r.1 = None ∧
   sent_since w r.2 = map attempt listed.1 ∧
   logged_since w r.2 = flat_map (noticeLines env text) listed.1 ∧
   (on_list env = Delivers →
    ∀ user, registered w user → attempt user ∈ sent_since w r.2) ∧
   store r.2 = store w).
Proof.
  intros listed Hnil text attempt. split.
  - intros users v v'. subst v'. rewrite notifyEach_spec. simpl.
    split; [by apply sent_since_app|]. split; [by apply logged_since_app | done].
  - rewrite (notifyAllUsers_listed env bot w Hnil). simpl. fold text.
    assert (Hsent : sent_since w
              (mkWorld (store w)
                 (journal w ++ flat_map (noticeLines env text)
                                 (database.GetAllUsers (on_list env) w).1.1)
                 (outbox w ++ map attempt (database.GetAllUsers (on_list env) w).1.1))
              = map attempt listed.1).
    { by apply sent_since_app. }
    split; [done|]. split; [exact Hsent|]. split; [by apply logged_since_app|].
    split; [|done].
    intros Hall user Hreg. unfold attempt in Hsent |- *. rewrite Hsent.
    subst listed. rewrite Hall. simpl.
    apply list_elem_of_fmap. exists user. split; [done|].
    by apply elem_of_select_user_ids.
Qed.

End Boot.

(** Two subscribers, 1 and 2, and the send to 1, the first of the pass,
    fails: the send to 2 is made all the same and succeeds, the pass returns
    no error and the log has the failure between the debug lines. *)
Lemma notifyAllUsers_attempts_every_send_witness :
  let w := mkWorld (mkTables {[ 1 := mkUserRow "a" "" "" 0;
                                2 := mkUserRow "b" "" "" 0 ]} [] 0) [] [] in
  let env := telegrambot.mkEnv Executes Executes Executes Executes Executes
               Executes Executes 9
               (λ msg, if decide (ToChat msg = 1) then Some (ErrSend 403) else None) in
  let text := "Bot started at t" +:+ String (Ascii.ascii_of_nat 10) "Last alive time: t" in
  let r := telegrambot.notifyAllUsers (λ _, "t") env (telegrambot.mkElectroBot 0 0) w in
  r.1 = None ∧
  sent_since w r.2 =
  [(mkMessageConfig 1 0 text, Some (ErrSend 403)); (mkMessageConfig 2 0 text, None)] ∧
  logged_since w r.2 =
  [mkEntry DebugLevel "Notifying user on start" [AInt 1];
   mkEntry ErrorLevel "Failed to send message to user %d: %s" [AInt 1; AErr (ErrSend 403)];
   mkEntry DebugLevel "Notifying user on start" [AInt 2]].
Proof.
  intros w env text r.
  pose proof (proj2 (notifyAllUsers_attempts_every_send (λ _, "t") env
                       (telegrambot.mkElectroBot 0 0) w eq_refl))
    as (Hnil & Hsent & Hlog & _).
  split; [exact Hnil|]. split; [exact Hsent | exact Hlog].
Defined.

(** The same pass when the stepping through the list fails after the first
    row: identity 1 is notified, identity 2 is not, and nothing tells. *)
Example boot_with_a_list_cut_short :
  let w := mkWorld (mkTables {[ 1 := mkUserRow "a" "" "" 0;
                                2 := mkUserRow "b" "" "" 0 ]} [] 0) [] [] in
  let env := telegrambot.mkEnv Executes Executes Executes (Breaks 1 (ErrDriver 10))
               Executes Executes Executes 9 (λ _, None) in
  let r := telegrambot.notifyAllUsers (λ _, "t") env (telegrambot.mkElectroBot 0 0) w in
  r.1 = None ∧
  (λ s, (ToChat s.1, s.2)) <$> outbox r.2 = [(1, None)] ∧
  filter (λ l, level l = ErrorLevel) (journal r.2) = [].
Proof. vm_compute. repeat split. Qed.

(** Two subscribers, the send to the first of which fails: both sends are
    made, the second succeeds, the pass returns no error and the log has
    the one failure. *)
Example boot_with_one_failing_send :
  let w := mkWorld (mkTables {[ 1 := mkUserRow "a" "" "" 0; 2 := mkUserRow "b" "" "" 0 ]} [] 0) [] [] in
  let env := telegrambot.mkEnv Executes Executes Executes Executes Executes
               Executes Executes 9
               (λ msg, if decide (ToChat msg = 1) then Some (ErrSend 403) else None) in
  let r := telegrambot.notifyAllUsers (λ _, "t") env (telegrambot.mkElectroBot 0 0) w in
  r.1 = None ∧
  (λ s, (ToChat s.1, s.2)) <$> outbox r.2 = [(1, Some (ErrSend 403)); (2, None)] ∧
  filter (λ l, level l = ErrorLevel) (journal r.2) =
  [mkEntry ErrorLevel "Failed to send message to user %d: %s" [AInt 1; AErr (ErrSend 403)]].
Proof. vm_compute. repeat split. Qed.

(** ** The heartbeat and the event loop *)

Lemma length_named_refreshed (now : Time) (n d : string) (l : list EventRow) :
  length (filter (λ r, database.named n r = true) (database.refreshed now n d l)) =
  length (filter (λ r, database.named n r = true) l).
Proof.
  induction l as [|r l IH]; [done|].
  unfold database.refreshed in *. simpl. destruct (database.named n r) eqn:E.
  - rewrite !filter_cons_True by done. simpl. by rewrite IH.
  - rewrite !filter_cons_False by (by rewrite E). done.
Qed.

Lemma refreshed_without_match (now : Time) (n d : string) (l : list EventRow) :
  length (filter (λ r, database.named n r = true) l) = 0%nat →
  database.refreshed now n d l = l.
Proof.
  induction l as [|r l IH]; [done|].
  unfold database.refreshed in *. simpl. destruct (database.named n r) eqn:E.
  - rewrite filter_cons_True by done. discriminate.
  - rewrite filter_cons_False by (by rewrite E). intros H. by rewrite IH.
Qed.

Lemma UpdateEvent_executes (now : Time) (n d : string) (w : World) :
  database.UpdateEvent Executes now n d w =
  (match length (rows_named n w) with O => Some NotFound | S _ => None end,
   mkWorld
     (database.set_events (store w)
        (database.refreshed now n d (events (store w))) (events_seq (store w)))
     (journal w) (outbox w)).
Proof.
  unfold database.UpdateEvent, bind. rewrite Exec_executes.
  unfold database.update_events, rows_named. simpl.
  by destruct (length (filter _ (events (store w)))).
Qed.

Lemma NewEvent_executes (now : Time) (n d : string) (w : World) :
  database.NewEvent Executes now n d w =
  (None,
   mkWorld
     (database.set_events (store w)
        (events (store w) ++ [mkEventRow (events_seq (store w) + 1) n d now])
        (events_seq (store w) + 1))
     (journal w) (outbox w)).
Proof. unfold database.NewEvent, bind. by rewrite Exec_executes. Qed.

Section Heartbeat.

Import telegrambot.

Variable Format : Time → string.

Local Abbreviation alive := "Bot is alive" (only parsing).

(** For every storage: the heartbeat calls [NewEvent] exactly when
    [UpdateEvent] returned an error, whatever the error is. *)
Lemma updateIsAliveState_falls_back_on_error {db : Storage} (env : Env) (w : World) :
  let updated :=
    UpdateEvent (on_update env) (now env) alive alive
      (mkWorld (store w) (journal w ++ [mkEntry DebugLevel alive []]) (outbox w)) in
  updateIsAliveState env w =
  match updated.1 with
  | None => (tt, updated.2)
  | Some _ =>
      let inserted := NewEvent (on_insert env) (now env) alive alive updated.2 in
      match inserted.1 with
      | Some err =>
          log ErrorLevel "Failed to store event due to DB error: %s" [AErr err]
            inserted.2
      | None => (tt, inserted.2)
      end
  end.
Proof.
  unfold updateIsAliveState, bind. simpl.
  destruct (UpdateEvent _ _ _ _ _) as [[err|] w1]; simpl; [|done].
  by destruct (NewEvent _ _ _ _ _) as [[err'|] w2].
Qed.

Lemma updateIsAliveState_updates (env : Env) (w : World) :
  on_update env = Executes → alive_rows w ≠ 0%nat →
  updateIsAliveState env w =
  (tt,
   mkWorld
     (database.set_events (store w)
        (database.refreshed (now env) alive alive (events (store w)))
        (events_seq (store w)))
     (journal w ++ [mkEntry DebugLevel alive []]) (outbox w)).
Proof.
  intros Hup Hrows. unfold updateIsAliveState, bind. simpl.
  rewrite Hup, UpdateEvent_executes. unfold alive_rows in Hrows.
  change (rows_named alive (mkWorld (store w) (journal w ++ [mkEntry DebugLevel alive []])
                              (outbox w)))
    with (rows_named alive w).
  by destruct (length (rows_named alive w)).
Qed.

Lemma updateIsAliveState_inserts (env : Env) (w : World) :
  on_update env ≠ Executes ∨ alive_rows w = 0%nat →
  updateIsAliveState env w =
  (tt,
   match on_insert env with
   | Executes =>
       mkWorld
         (database.set_events (store w)
            (events (store w) ++
               [mkEventRow (events_seq (store w) + 1) alive alive (now env)])
            (events_seq (store w) + 1))
         (journal w ++ [mkEntry DebugLevel alive []]) (outbox w)
   | Faults e =>
       mkWorld (store w)
         (journal w ++ [mkEntry DebugLevel alive [];
                        mkEntry ErrorLevel "Failed to store event due to DB error: %s"
                          [AErr e]])
         (outbox w)
   end).
Proof.
  intros Hcase. unfold updateIsAliveState, bind. simpl.
  destruct (on_update env) as [|e] eqn:Hup.
  - destruct Hcase as [Hne|Hrows]; [done|].
    rewrite UpdateEvent_executes.
    change (rows_named alive (mkWorld (store w) (journal w ++ [mkEntry DebugLevel alive []])
                                (outbox w)))
      with (rows_named alive w).
    unfold alive_rows in Hrows. rewrite Hrows. simpl.
    rewrite refreshed_without_match by exact Hrows.
    unfold database.set_events at 1. rewrite tables_eta.
    destruct (on_insert env) as [|e'].
    + by rewrite NewEvent_executes.
    + simpl. unfold log. simpl. by rewrite <- app_assoc.
  - simpl. destruct (on_insert env) as [|e'].
    + by rewrite NewEvent_executes.
    + simpl. unfold log. simpl. by rewrite <- app_assoc.
Qed.

Lemma ticks_keep_alive_rows (bot : ElectroBot) (envs : list Env) (w : World) :
  Forall (λ e, on_update e = Executes) envs → alive_rows w ≠ 0%nat →
  alive_rows (handlerLoop Format bot (map (λ e, (Tick, e)) envs) w).2 = alive_rows w.
Proof.
  intros Hall. revert w. induction Hall as [|env envs Hup _ IH]; intros w Hrows; [done|].
  simpl. unfold bind at 1. rewrite updateIsAliveState_updates by done.
  assert (Hkeep : alive_rows
            (mkWorld
               (database.set_events (store w)
                  (database.refreshed (now env) alive alive (events (store w)))
                  (events_seq (store w)))
               (journal w ++ [mkEntry DebugLevel alive []]) (outbox w))
            = alive_rows w).
  { unfold alive_rows, rows_named. simpl. apply length_named_refreshed. }
  rewrite IH by (by rewrite Hkeep). exact Hkeep.
Qed.

(** C2: every heartbeat tries the update-by-name first and goes on to the
    insert exactly when the update returned an error, which is when it
    changed no row: no row has the name, or the statement was not
    executed.  With an executed update and a row of the name, the rows with
    the name are refreshed in place, the log gets the one debug line, and
    the insert is not tried whatever the driver would do with it.
    Otherwise the insert is tried: executed, it appends one row; failed, it
    leaves the error line in the log.  Hence ticks whose update is executed
    never change the number of rows with the name once there is one. *)
Theorem heartbeat_updates_else_inserts (env : Env) (w : World) :
  let w' := (updateIsAliveState env w).2 in
  let fresh := mkEventRow (events_seq (store w) + 1) alive alive (now env) in
  (on_update env = Executes → alive_rows w ≠ 0%nat →
   events (store w') = database.refreshed (now env) alive alive (events (store w)) ∧
   alive_rows w' = alive_rows w ∧
   logged_since w w' = [mkEntry DebugLevel alive []]) ∧
  (on_update env ≠ Executes ∨ alive_rows w = 0%nat →
   match on_insert env with
   | Executes =>
       events (store w') = events (store w) ++ [fresh] ∧
       alive_rows w' = S (alive_rows w) ∧
       logged_since w w' = [mkEntry DebugLevel alive []]
   | Faults e =>
       events (store w') = events (store w) ∧
       logged_since w w' =
       [mkEntry DebugLevel alive [];
        mkEntry ErrorLevel "Failed to store event due to DB error: %s" [AErr e]]
   end) ∧
  (∀ (bot : ElectroBot) (envs : list Env),
     Forall (λ e, on_update e = Executes) envs → alive_rows w ≠ 0%nat →
     alive_rows (handlerLoop Format bot (map (λ e, (Tick, e)) envs) w).2 = alive_rows w).
Proof.
  intros w' fresh. split; [|split].
  - intros Hup Hrows. subst w'. rewrite updateIsAliveState_updates by done. simpl.
    split; [done|]. split.
    + unfold alive_rows, rows_named. simpl. apply length_named_refreshed.
    + by apply logged_since_app.
  - intros Hcase. subst w'. rewrite updateIsAliveState_inserts by done.
    destruct (on_insert env) as [|e]; simpl.
    + split; [done|]. split; [|by apply logged_since_app].
      unfold alive_rows, rows_named. simpl.
      rewrite filter_app, length_app. simpl. lia.
    + split; [done | by apply logged_since_app].
  - intros bot envs. apply ticks_keep_alive_rows.
Qed.

(** What the loop receives after [Done] is not handled: the function has
    returned. *)
Lemma handlerLoop_returns_at_Done (bot : ElectroBot)
    (before after : list (Selected * Env)) (env : Env) (w : World) :
  handlerLoop Format bot (before ++ (Done, env) :: after) w =
  handlerLoop Format bot (before ++ [(Done, env)]) w ∧
  (handlerLoop Format bot (before ++ [(Done, env)]) w).1 = true.
Proof.
  revert w. induction before as [|[[| [message|] |] e] before IH]; intros w; simpl.
  - done.
  - unfold bind. destruct (updateIsAliveState e w) as [[] w1]. apply IH.
  - unfold bind.
    destruct ((if IsCommand message then handleTGMessageCommand Format e bot message
               else ret ()) w) as [[] w1].
    apply IH.
  - apply IH.
  - done.
Qed.

End Heartbeat.

(** ** The theorems at concrete inputs *)

(** Identity 7 is registered and sends ["start"] in the chat -1001: the
    reply is the failure text. *)
Lemma start_by_registered_sender_in_another_chat_witness :
  let w := mkWorld (mkTables {[ 7 := mkUserRow "u" "g" "f" 0 ]} [] 0) [] [] in
  let m := mkMessage 11 (mkUser 7 "u" "g" "f") (mkChat (-1001)) true "start" in
  let w' := (telegrambot.handleTGMessageCommand (λ _, "") (telegrambot.calm 1)
               (telegrambot.mkElectroBot 0 0) m w).2 in
  registered w 7 ∧
  sent_since w w' =
  [(mkMessageConfig (-1001) 11 "Failed to register you. Please try again later", None)] ∧
  store w' = store w.
Proof.
  intros w m w'.
  assert (Hfrom : registered w 7).
  { exists (mkUserRow "u" "g" "f" 0). reflexivity. }
  assert (Hchat : ¬ registered w (-1001)).
  { intros [row Hrow]. vm_compute in Hrow. discriminate Hrow. }
  split; [exact Hfrom|].
  exact (start_by_registered_sender_in_another_chat (λ _, "") (telegrambot.calm 1)
           (telegrambot.mkElectroBot 0 0) m w eq_refl eq_refl eq_refl Hfrom Hchat).
Defined.

(** The dispatch scenario in a private chat: a first ["start"] of identity
    7 on the empty registry adds one row and is answered with the success
    text, a second one adds none and is answered with the
    already-registered text. *)
Example start_twice_in_private_chat :
  let w := mkWorld (mkTables ∅ [] 0) [] [] in
  let m := mkMessage 11 (mkUser 7 "u" "g" "f") (mkChat 7) true "start" in
  let handle := telegrambot.handleTGMessageCommand (λ _, "") (telegrambot.calm 1)
                  (telegrambot.mkElectroBot 0 0) m in
  let w1 := (handle w).2 in
  let w2 := (handle w1).2 in
  (subscribers w, subscribers w1, subscribers w2) = (0, 1, 1)%nat ∧
  (λ s, Text s.1) <$> outbox w2 =
  ["You've been successfully registered"; "You're already registered"].
Proof. vm_compute. done. Qed.

(** ["help"] from identity 7 in its private chat. *)
Lemma help_is_answered_with_the_empty_text_witness :
  let w := mkWorld (mkTables ∅ [] 0) [] [] in
  let m := mkMessage 11 (mkUser 7 "u" "g" "f") (mkChat 7) true "help" in
  let w' := (telegrambot.handleTGMessageCommand (λ _, "") (telegrambot.calm 1)
               (telegrambot.mkElectroBot 0 0) m w).2 in
  sent_since w w' = [(mkMessageConfig 7 11 "", None)] ∧
  "" ≠ telegrambot.handleHelpCommand.
Proof.
  exact (help_is_answered_with_the_empty_text (λ _, "") (telegrambot.calm 1)
           (telegrambot.mkElectroBot 0 0)
           (mkMessage 11 (mkUser 7 "u" "g" "f") (mkChat 7) true "help")
           (mkWorld (mkTables ∅ [] 0) [] []) eq_refl).
Defined.

(** Identity 7 sends ["start"] twice in the chat -1001, on the empty
    registry: after the first, the existence check for the chat still
    answers false and the second is answered with the failure text. *)
Lemma start_checks_chat_and_stores_sender_witness :
  let w := mkWorld (mkTables ∅ [] 0) [] [] in
  let m := mkMessage 11 (mkUser 7 "u" "g" "f") (mkChat (-1001)) true "start" in
  let handle := telegrambot.handleTGMessageCommand (λ _, "") (telegrambot.calm 1)
                  (telegrambot.mkElectroBot 0 0) m in
  let w1 := (handle w).2 in
  let w2 := (handle w1).2 in
  registered w1 7 ∧
  (database.UserExists Executes (-1001) w1).1 = false ∧
  sent_since w1 w2 =
  [(mkMessageConfig (-1001) 11 "Failed to register you. Please try again later", None)].
Proof.
  intros w m handle w1 w2.
  assert (Hnone : ∀ i, ¬ registered w i).
  { intros i [row Hrow]. simpl in Hrow. by rewrite lookup_empty in Hrow. }
  pose proof (start_checks_chat_and_stores_sender (λ _, "") (telegrambot.calm 1)
                (telegrambot.calm 1) (telegrambot.mkElectroBot 0 0) m w
                eq_refl eq_refl eq_refl eq_refl eq_refl) as H.
  destruct H as (_ & _ & H).
  destruct (H (Hnone _) (Hnone _)) as (_ & _ & _ & Hother).
  assert (Hne : ChatID (InChat m) ≠ UserID (From m)) by (simpl; lia).
  destruct (Hother Hne) as (_ & Hexists & Hsent & _).
  split; [|split; [exact Hexists | exact Hsent]].
  exists (mkUserRow "u" "g" "f" 1). reflexivity.
Defined.

(** A heartbeat on a store without an alive row, everything executed: one
    row is appended. *)
Lemma heartbeat_updates_else_inserts_witness :
  let w := mkWorld (mkTables ∅ [] 0) [] [] in
  let w' := (telegrambot.updateIsAliveState (telegrambot.calm 15) w).2 in
  events (store w') = [mkEventRow 1 "Bot is alive" "Bot is alive" 15] ∧
  alive_rows w' = 1%nat ∧
  logged_since w w' = [mkEntry DebugLevel "Bot is alive" []].
Proof.
  exact (proj1 (proj2 (heartbeat_updates_else_inserts (λ _, "") (telegrambot.calm 15)
                         (mkWorld (mkTables ∅ [] 0) [] [])))
           (or_intror eq_refl)).
Defined.

(** The store has one alive row; the update of the next heartbeat is not
    executed (SQLITE_BUSY), its insert is: the store has two alive rows. *)
Lemma failed_update_adds_a_second_row :
  let w := mkWorld (mkTables ∅ [mkEventRow 1 "Bot is alive" "Bot is alive" 10] 1) [] [] in
  let env := telegrambot.mkEnv Executes Executes Executes Executes
               (Faults (ErrDriver 5)) Executes Executes 15 (λ _, None) in
  let w' := (telegrambot.updateIsAliveState env w).2 in
  alive_rows w = 1%nat ∧
  events (store w') =
  [mkEventRow 1 "Bot is alive" "Bot is alive" 10;
   mkEventRow 2 "Bot is alive" "Bot is alive" 15] ∧
  alive_rows w' = 2%nat.
Proof. vm_compute. done. Qed.

(** Three heartbeats at increasing times on the empty store leave one row,
    whose time is that of the third. *)
Example three_heartbeats :
  let w := mkWorld (mkTables ∅ [] 0) [] [] in
  let w3 := (telegrambot.handlerLoop (λ _, "") (telegrambot.mkElectroBot 0 0)
               [(telegrambot.Tick, telegrambot.calm 10);
                (telegrambot.Tick, telegrambot.calm 20);
                (telegrambot.Tick, telegrambot.calm 30)] w).2 in
  events (store w3) = [mkEventRow 1 "Bot is alive" "Bot is alive" 30] ∧
  (telegrambot.getLastAliveTime (telegrambot.calm 31) w3).1 = (30, None).
Proof. vm_compute. done. Qed.

(** ** More on the command handlers *)

Section Dispatch.

Import telegrambot.

Variable Format : Time → string.

Lemma handleTGMessageCommand_lastshutdown (env : Env) (bot : ElectroBot)
    (m : Message) (w : World) :
  Command m = "lastshutdown" →
  handleTGMessageCommand Format env bot m w =
  (tt, replies env m (handleLastShutdownCommand Format bot) (arrival m w)).
Proof.
  intros Hc. unfold handleTGMessageCommand. rewrite Hc. simpl.
  unfold bind at 1. simpl. fold (arrival m w).
  unfold bind at 1. unfold ret at 1. apply reply_sent.
Qed.

(** What [handleStartCommand] leaves alone, whatever the driver does: the
    outbox, the events, every row of another identity than the sender's,
    and a row that the sender has. *)
Lemma handleStartCommand_frame (env : Env) (userID : Z) (m : Message) (w : World) :
  let r := handleStartCommand env userID m w in
  outbox r.2 = outbox w ∧
  events (store r.2) = events (store w) ∧
  events_seq (store r.2) = events_seq (store w) ∧
  (∀ i, i ≠ UserID (From m) → tg_users (store r.2) !! i = tg_users (store w) !! i) ∧
  (∀ row, tg_users (store w) !! UserID (From m) = Some row →
          tg_users (store r.2) !! UserID (From m) = Some row).
Proof.
  unfold handleStartCommand, bind. simpl.
  destruct (on_exists env) as [|e].
  - rewrite UserExists_executes. destruct (bool_decide (registered w userID)); [done|].
    destruct (on_store env) as [|e'].
    + rewrite StoreUserInfo_executes.
      destruct (tg_users (store w) !! UserID (From m)) as [row|] eqn:Hrow; simpl.
      * rewrite Hrow. done.
      * repeat split; try done. intros i Hi. by rewrite lookup_insert_ne.
    + rewrite StoreUserInfo_faults. done.
  - rewrite UserExists_faults. simpl.
    destruct (on_store env) as [|e'].
    + rewrite StoreUserInfo_executes. simpl.
      destruct (tg_users (store w) !! UserID (From m)) as [row|] eqn:Hrow; simpl.
      * rewrite Hrow. done.
      * repeat split; try done. intros i Hi. by rewrite lookup_insert_ne.
    + rewrite StoreUserInfo_faults. done.
Qed.

(** What [handleStopCommand] leaves alone: the outbox, the events and
    every row of another identity than the one it is called with. *)
Lemma handleStopCommand_frame (env : Env) (userID : Z) (w : World) :
  let r := handleStopCommand env userID w in
  outbox r.2 = outbox w ∧
  events (store r.2) = events (store w) ∧
  events_seq (store r.2) = events_seq (store w) ∧
  (∀ i, i ≠ userID → tg_users (store r.2) !! i = tg_users (store w) !! i).
Proof.
  unfold handleStopCommand, bind. simpl.
  destruct (on_remove env) as [|e].
  - rewrite RemoveUserInfo_executes. simpl. repeat split.
    intros i Hi. by rewrite lookup_delete_ne.
  - rewrite RemoveUserInfo_faults. done.
Qed.

(** The five ways through the switch of [handleTGMessageCommand]. *)
Lemma handleTGMessageCommand_cases (env : Env) (bot : ElectroBot) (m : Message)
    (w : World) :
  ∃ (text : string) (v : World),
    handleTGMessageCommand Format env bot m w = (tt, replies env m text v) ∧
    ((Command m = "lastshutdown" ∧ v = arrival m w) ∨
     (Command m = "start" ∧
      v = (handleStartCommand env (ChatID (InChat m)) m (arrival m w)).2) ∨
     (Command m = "stop" ∧
      v = (handleStopCommand env (ChatID (InChat m)) (arrival m w)).2) ∨
     (Command m ≠ "start" ∧ Command m ≠ "stop" ∧ v = arrival m w)).
Proof.
  destruct (String.eqb_spec (Command m) "lastshutdown") as [H1|H1].
  { eexists _, _. split; [by apply handleTGMessageCommand_lastshutdown|]. by left. }
  destruct (String.eqb_spec (Command m) "start") as [H2|H2].
  { eexists _, _. split; [by apply handleTGMessageCommand_start|]. right. by left. }
  destruct (String.eqb_spec (Command m) "stop") as [H3|H3].
  { eexists _, _. split; [by apply handleTGMessageCommand_stop|]. right. right. by left. }
  destruct (String.eqb_spec (Command m) "help") as [H4|H4].
  { eexists _, _. split; [by apply handleTGMessageCommand_help|]. by repeat right. }
  eexists _, _. split; [by apply handleTGMessageCommand_default|]. by repeat right.
Qed.

End Dispatch.

Section DispatchFacts.

Import telegrambot.

Variable Format : Time → string.

Lemma handleTGMessageCommand_outbox (env : Env) (bot : ElectroBot) (m : Message)
    (w : World) :
  ∃ (text : string) (v : World),
    handleTGMessageCommand Format env bot m w = (tt, replies env m text v) ∧
    outbox v = outbox w.
Proof.
  destruct (handleTGMessageCommand_cases Format env bot m w)
    as (text & v & Heq & [[_ ->]|[[_ ->]|[[_ ->]|(_ & _ & ->)]]]);
    exists text; eexists; (split; [exact Heq|]); try done.
  - apply (handleStartCommand_frame env _ m (arrival m w)).
  - apply (handleStopCommand_frame env _ (arrival m w)).
Qed.

(** X1: whatever the command, the store and the results of the statements,
    [handleTGMessageCommand] hands exactly one message to [Send]; it goes to
    the chat of the triggering message and is threaded under it.  When the
    send fails, the last line of the log is the error line of the send. *)
Theorem every_command_gets_one_threaded_reply (env : Env) (bot : ElectroBot)
    (m : Message) (w : World) :
  let w' := (handleTGMessageCommand Format env bot m w).2 in
  ∃ text : string,
    let reply := mkMessageConfig (ChatID (InChat m)) (MessageID m) text in
    sent_since w w' = [(reply, net env reply)] ∧
    (∀ err, net env reply = Some err →
       last (journal w') =
       Some (mkEntry ErrorLevel "Failed to send message: %s" [AErr err])).
Proof.
  destruct (handleTGMessageCommand_outbox env bot m w) as (text & v & Heq & Hout).
  simpl. rewrite Heq. exists text. split.
  - apply sent_since_app. simpl. by rewrite Hout.
  - intros err Herr. unfold replies. simpl. rewrite Herr. apply last_snoc.
Qed.

(** X2: what a command can change in the store.  No command touches the
    events.  Only ["start"] and ["stop"] change the registry at all; neither
    changes the row of an identity that is neither the sender nor the chat
    of the message; ["start"] never removes or overwrites a row;
    ["stop"] changes no row but the one of the chat identity. *)
Theorem commands_change_at_most_one_row (env : Env) (bot : ElectroBot)
    (m : Message) (w : World) :
  let w' := (handleTGMessageCommand Format env bot m w).2 in
  events (store w') = events (store w) ∧
  events_seq (store w') = events_seq (store w) ∧
  (Command m ≠ "start" → Command m ≠ "stop" → store w' = store w) ∧
  (∀ i, i ≠ UserID (From m) → i ≠ ChatID (InChat m) →
        tg_users (store w') !! i = tg_users (store w) !! i) ∧
  (Command m = "start" →
   ∀ i row, tg_users (store w) !! i = Some row → tg_users (store w') !! i = Some row) ∧
  (Command m = "stop" →
   ∀ i, i ≠ ChatID (InChat m) → tg_users (store w') !! i = tg_users (store w) !! i).
Proof.
  pose proof (handleStartCommand_frame env (ChatID (InChat m)) m (arrival m w))
    as (_ & Hs1 & Hs2 & Hs3 & Hs4).
  pose proof (handleStopCommand_frame env (ChatID (InChat m)) (arrival m w))
    as (_ & Hp1 & Hp2 & Hp3).
  destruct (handleTGMessageCommand_cases Format env bot m w)
    as (text & v & Heq & Hcases).
  simpl. rewrite Heq. unfold replies. simpl.
  destruct Hcases as [[Hc ->]|[[Hc ->]|[[Hc ->]|(Hn1 & Hn2 & ->)]]]; simpl.
  - repeat split; try done; rewrite Hc; discriminate.
  - split; [done|]. split; [done|]. split; [done|]. split; [auto|].
    split; [|rewrite Hc; discriminate].
    intros _ i row Hrow. destruct (decide (i = UserID (From m))) as [->|Hne].
    + by apply Hs4.
    + by rewrite Hs3.
  - split; [done|]. split; [done|]. split; [done|]. split; [auto|].
    split; [rewrite Hc; discriminate | auto].
  - repeat split; done.
Qed.

(** X3: the reply to ["stop"].  When the delete is executed the reply is
    the success text and the chat identity has no row afterwards -- also
    when it had none before, in which case the store is as it was.  When the
    delete fails the reply is the failure text, the store is as it was and
    the error is logged. *)
Theorem stop_reply (env : Env) (bot : ElectroBot) (m : Message) (w : World) :
  Command m = "stop" →
  let w' := (handleTGMessageCommand Format env bot m w).2 in
  let reply text := mkMessageConfig (ChatID (InChat m)) (MessageID m) text in
  match on_remove env with
  | Executes =>
      sent_since w w' = [(reply "You've been successfully unregistered",
                          net env (reply "You've been successfully unregistered"))] ∧
      ¬ registered w' (ChatID (InChat m)) ∧
      (¬ registered w (ChatID (InChat m)) → store w' = store w)
  | Faults e =>
      sent_since w w' = [(reply "Failed to unregister you. Please try again later",
                          net env (reply "Failed to unregister you. Please try again later"))] ∧
      store w' = store w ∧
      mkEntry ErrorLevel "Failed to remove user info: %s" [AErr e] ∈ logged_since w w'
  end.
Proof.
  intros Hc w' reply. subst w'. rewrite handleTGMessageCommand_stop by done.
  destruct (on_remove env) as [|e] eqn:Hrm.
  - rewrite (handleStopCommand_executes env _ (arrival m w)) by done. simpl.
    split; [by apply sent_since_app|]. split.
    + unfold registered. simpl. rewrite lookup_delete_eq. by intros [? ?].
    + intros Hno. unfold registered in Hno. apply eq_None_not_Some in Hno.
      rewrite delete_id by done. unfold database.set_tg_users. apply tables_eta.
  - unfold handleStopCommand, bind. rewrite Hrm, RemoveUserInfo_faults. simpl.
    split; [by apply sent_since_app|]. split; [done|].
    unfold logged_since. simpl. rewrite <- !app_assoc, drop_app_length.
    set_solver.
Qed.

(** X4: a failed existence query does not stop ["start"]: the handler goes
    on to the insert as if there were no row.  With the insert executed, a
    sender without a row is registered and told so; a sender with a row is
    told that the registration failed, not that there is one.  The error of
    the query is logged. *)
Theorem start_after_failed_existence_check (env : Env) (bot : ElectroBot)
    (m : Message) (w : World) (e : error) :
  Command m = "start" → on_exists env = Faults e → on_store env = Executes →
  let w' := (handleTGMessageCommand Format env bot m w).2 in
  let reply text := mkMessageConfig (ChatID (InChat m)) (MessageID m) text in
  mkEntry ErrorLevel "Failed to check if user exists: %s" [AErr e] ∈ logged_since w w' ∧
  (¬ registered w (UserID (From m)) →
   sent_since w w' = [(reply "You've been successfully registered",
                       net env (reply "You've been successfully registered"))] ∧
   registered w' (UserID (From m)) ∧ subscribers w' = S (subscribers w)) ∧
  (registered w (UserID (From m)) →
   sent_since w w' = [(reply "Failed to register you. Please try again later",
                       net env (reply "Failed to register you. Please try again later"))] ∧
   store w' = store w).
Proof.
  intros Hc Hex Hst w' reply. subst w'. rewrite handleTGMessageCommand_start by done.
  unfold handleStartCommand, bind. rewrite Hex, UserExists_faults. simpl.
  rewrite Hst, StoreUserInfo_executes. simpl.
  destruct (tg_users (store w) !! UserID (From m)) as [row|] eqn:Hrow; simpl.
  - split.
    { unfold logged_since. simpl. rewrite <- !app_assoc, drop_app_length. set_solver. }
    split; [intros Hno; destruct Hno; by eexists|]. intros _.
    split; [by apply sent_since_app | done].
  - split.
    { unfold logged_since. simpl. rewrite <- !app_assoc, drop_app_length. set_solver. }
    split; [|intros [row' Hr]; simpl in Hr; congruence]. intros _.
    split; [by apply sent_since_app|]. unfold registered, subscribers. simpl. split.
    + rewrite lookup_insert_eq. by eexists.
    + by apply map_size_insert_None.
Qed.

End DispatchFacts.

Section Registration.

Import telegrambot.

Variable Format : Time → string.

(** X5: ["start"] followed by ["stop"] from the same chat, all statements
    executed, on a registry with no row for the sender or the chat.  When
    the chat identity is the sender's, the store is again as it was before
    the two.  When it is not, the sender still has the row after the
    ["stop"], although the reply says that the sender was unregistered. *)
Theorem start_then_stop (env env' : Env) (bot : ElectroBot) (m s : Message)
    (w : World) :
  Command m = "start" → Command s = "stop" →
  ChatID (InChat s) = ChatID (InChat m) →
  on_exists env = Executes → on_store env = Executes → on_remove env' = Executes →
  ¬ registered w (ChatID (InChat m)) → ¬ registered w (UserID (From m)) →
  let w1 := (handleTGMessageCommand Format env bot m w).2 in
  let w2 := (handleTGMessageCommand Format env' bot s w1).2 in
  let reply := mkMessageConfig (ChatID (InChat s)) (MessageID s)
                 "You've been successfully unregistered" in
  registered w1 (UserID (From m)) ∧
  sent_since w1 w2 = [(reply, net env' reply)] ∧
  (ChatID (InChat m) = UserID (From m) → store w2 = store w) ∧
  (ChatID (InChat m) ≠ UserID (From m) → registered w2 (UserID (From m))).
Proof.
  intros Hm Hs Hchat Hex Hst Hrm Hnochat Hnofrom w1 w2 reply.
  subst w1 w2.
  rewrite (handleTGMessageCommand_start Format env bot m w) by done.
  rewrite (handleStartCommand_stores env _ m (arrival m w)) by done. simpl.
  rewrite handleTGMessageCommand_stop by done.
  rewrite (handleStopCommand_executes env') by done. simpl.
  split; [|split; [|split]].
  - unfold registered. simpl. rewrite lookup_insert_eq. by eexists.
  - by apply sent_since_app.
  - intros Heq. unfold database.set_tg_users. simpl. rewrite Hchat, Heq.
    rewrite delete_insert_id by (by apply eq_None_not_Some). apply tables_eta.
  - intros Hne. unfold registered. simpl. rewrite Hchat.
    rewrite lookup_delete_ne by done. rewrite lookup_insert_eq. by eexists.
Qed.

(** X6: in a chat whose identity is the sender's, with the existence query
    executed, ["start"] registers once.  A sender with a row gets the
    already-registered text and the store stays as it was.  A sender without
    one gets, when the insert is executed, the success text and exactly one
    new row, the sender's; when the insert fails, the failure text, and the
    store stays as it was. *)
Theorem start_in_private_chat_registers_once (env : Env) (bot : ElectroBot)
    (m : Message) (w : World) :
  Command m = "start" → ChatID (InChat m) = UserID (From m) →
  on_exists env = Executes →
  let w' := (handleTGMessageCommand Format env bot m w).2 in
  let reply text := mkMessageConfig (ChatID (InChat m)) (MessageID m) text in
  (registered w (UserID (From m)) →
   sent_since w w' = [(reply "You're already registered",
                       net env (reply "You're already registered"))] ∧
   store w' = store w) ∧
  (¬ registered w (UserID (From m)) →
   match on_store env with
   | Executes =>
       sent_since w w' = [(reply "You've been successfully registered",
                           net env (reply "You've been successfully registered"))] ∧
       registered w' (UserID (From m)) ∧
       subscribers w' = S (subscribers w) ∧
       (∀ i, i ≠ UserID (From m) →
             tg_users (store w') !! i = tg_users (store w) !! i)
   | Faults e =>
       sent_since w w' = [(reply "Failed to register you. Please try again later",
                           net env (reply "Failed to register you. Please try again later"))] ∧
       store w' = store w
   end).
Proof.
  intros Hc Hid Hex w' reply. subst w'.
  rewrite handleTGMessageCommand_start by done. split; intros Hreg.
  - rewrite (handleStartCommand_known env _ m (arrival m w)) by (by rewrite ?Hid).
    split; [by apply sent_since_app | done].
  - destruct (on_store env) as [|e] eqn:Hst.
    + rewrite (handleStartCommand_stores env _ m (arrival m w)) by (by rewrite ?Hid).
      split; [by apply sent_since_app|]. unfold registered, subscribers. simpl.
      split; [rewrite lookup_insert_eq; by eexists|].
      split; [apply map_size_insert_None; by apply eq_None_not_Some|].
      intros i Hi. by rewrite lookup_insert_ne.
    + rewrite (handleStartCommand_store_faults env _ m (arrival m w) e)
        by (by rewrite ?Hid).
      split; [by apply sent_since_app | done].
Qed.

End Registration.

(** ** More on the registry *)

Lemma select_user_ids_NoDup (t : Tables) : NoDup (database.select_user_ids t).
Proof.
  unfold database.select_user_ids. rewrite merge_sort_Permutation.
  apply NoDup_fst_map_to_list.
Qed.

Lemma select_user_ids_length (t : Tables) :
  length (database.select_user_ids t) = size (tg_users t).
Proof.
  unfold database.select_user_ids.
  by rewrite merge_sort_Permutation, length_fmap, length_map_to_list.
Qed.

Lemma select_user_ids_sorted (t : Tables) : Sorted Z.le (database.select_user_ids t).
Proof. unfold database.select_user_ids. apply (Sorted_merge_sort Z.le). Qed.

Lemma NoDup_take_of {A} (n : nat) (l : list A) : NoDup l → NoDup (take n l).
Proof.
  intros Hl. rewrite <- (take_drop n l) in Hl. by apply NoDup_app in Hl as [? _].
Qed.

Lemma elem_of_take_of {A} (n : nat) (l : list A) (x : A) : x ∈ take n l → x ∈ l.
Proof. intros Hx. rewrite <- (take_drop n l). apply elem_of_app. by left. Qed.

(** X7: what [GetAllUsers] returns, by what the driver does with the query.
    In every case the list has no identity twice and none without a row,
    and the store and the outbox are as they were.  When the query delivers
    all its rows, the list has every identity with a row, in ascending
    order, and there is no error.  When [Query] returns an error, the list
    is empty, the error is returned and one error line is written.  When the
    stepping fails after some rows, the function returns the rows received
    so far -- the first of the full list -- with no error and writes
    nothing: the failure is lost. *)
Theorem GetAllUsers_lists_rows_once_or_loses_some (rows : Rows) (w : World) :
  let r := database.GetAllUsers rows w in
  store r.2 = store w ∧ outbox r.2 = outbox w ∧
  NoDup r.1.1 ∧
  (∀ i, i ∈ r.1.1 → registered w i) ∧
  match rows with
  | Delivers =>
      r.1.2 = None ∧ r.2 = w ∧
      (∀ i, registered w i → i ∈ r.1.1) ∧
      length r.1.1 = subscribers w ∧
      Sorted Z.le r.1.1
  | Refuses e =>
      r.1 = ([], Some e) ∧
      logged_since w r.2 =
      [mkEntry ErrorLevel "Failed to get all users: %s" [AErr e]]
  | Breaks n e =>
      r.1.2 = None ∧ r.2 = w ∧
      r.1.1 = take n (database.GetAllUsers Delivers w).1.1 ∧
      length r.1.1 = min n (subscribers w)
  end.
Proof.
  intros r. subst r. rewrite GetAllUsers_by_rows.
  pose proof (select_user_ids_NoDup (store w)) as Hnd.
  pose proof (select_user_ids_length (store w)) as Hlen.
  destruct rows as [|e|n e]; simpl.
  - split; [done|]. split; [done|]. split; [done|].
    split; [intros i; apply elem_of_select_user_ids|].
    split; [done|]. split; [done|].
    split; [intros i; apply elem_of_select_user_ids|].
    split; [exact Hlen | apply select_user_ids_sorted].
  - split; [done|]. split; [done|]. split; [constructor|].
    split; [by intros i ?%elem_of_nil|]. split; [done|]. by apply logged_since_app.
  - split; [done|]. split; [done|]. split; [by apply NoDup_take_of|].
    split.
    { intros i Hi%elem_of_take_of. by apply elem_of_select_user_ids. }
    split; [done|]. split; [done|]. split; [done|].
    by rewrite length_take, Hlen.
Qed.

(** X8: [StoreUserInfo] adds one row or nothing.  It returns no error
    exactly when the insert is executed and the sender has no row; then the
    registry has one row more, the sender's, with the three names of the
    sender and the time of the insert.  With an error -- the driver's, or
    the constraint's when the sender has a row -- the world is as it was.
    In no case does it change the row of another identity, or the events. *)
Theorem StoreUserInfo_adds_one_row_or_nothing (drv : Driver) (now : Time)
    (message : Message) (w : World) :
  let sender := UserID (From message) in
  let r := database.StoreUserInfo drv now message w in
  (r.1 = None ↔ drv = Executes ∧ ¬ registered w sender) ∧
  (r.1 = None →
   subscribers r.2 = S (subscribers w) ∧
   tg_users (store r.2) !! sender =
   Some (mkUserRow (UserName (From message)) (FirstName (From message))
           (LastName (From message)) now)) ∧
  (r.1 ≠ None → r.2 = w) ∧
  (drv = Executes → registered w sender → r.1 = Some ErrConstraint) ∧
  (∀ i, i ≠ sender → tg_users (store r.2) !! i = tg_users (store w) !! i) ∧
  events (store r.2) = events (store w).
Proof.
  intros sender r. subst r. destruct drv as [|e].
  - rewrite StoreUserInfo_executes. fold sender. unfold registered.
    destruct (tg_users (store w) !! sender) as [row|] eqn:Hrow; simpl.
    + split; [split; [done | intros [_ Hno]; destruct Hno; by eexists]|].
      split; [done|]. split; [done|]. split; [done|]. split; [done|]. done.
    + split; [split; [intros _; split; [done | by intros [? ?]] | done]|].
      split.
      { intros _. split; [|by rewrite lookup_insert_eq].
        unfold subscribers. simpl. by apply map_size_insert_None. }
      split; [done|]. split; [by intros _ [? ?]|].
      split; [|done]. intros i Hi. by rewrite lookup_insert_ne.
  - rewrite StoreUserInfo_faults. simpl.
    split; [split; [done | by intros [? _]]|].
    split; [done|]. split; [done|]. split; [done|]. split; [done|]. done.
Qed.

(** X9: [RemoveUserInfo] removes one row or nothing.  It returns an error
    exactly when the driver does; then the world is as it was.  Executed, it
    leaves the identity without a row and the registry one row smaller when
    there was one, of the same size when there was none.  In no case does it
    change the row of another identity, or the events. *)
Theorem RemoveUserInfo_removes_one_row_or_nothing (drv : Driver) (userID : Z)
    (w : World) :
  let r := database.RemoveUserInfo drv userID w in
  (r.1 = None ↔ drv = Executes) ∧
  (r.1 ≠ None → r.2 = w) ∧
  (r.1 = None →
   ¬ registered r.2 userID ∧
   subscribers r.2 =
   if decide (registered w userID) then pred (subscribers w) else subscribers w) ∧
  (∀ i, i ≠ userID → tg_users (store r.2) !! i = tg_users (store w) !! i) ∧
  events (store r.2) = events (store w).
Proof.
  intros r. subst r. destruct drv as [|e].
  - rewrite RemoveUserInfo_executes. simpl.
    split; [done|]. split; [done|]. split.
    { intros _. split.
      - unfold registered. simpl. rewrite lookup_delete_eq. by intros [? ?].
      - unfold subscribers. simpl. destruct (decide (registered w userID)) as [Hr|Hr].
        + by apply map_size_delete_Some.
        + apply map_size_delete_None. by apply eq_None_not_Some. }
    split; [|done]. intros i Hi. by rewrite lookup_delete_ne.
  - rewrite RemoveUserInfo_faults. simpl.
    split; [split; done|]. split; [done|]. split; [done|]. split; done.
Qed.

(** ** More on the start of the bot *)

Lemma GetAllUsers_same_store (rows : Rows) (w w' : World) :
  store w = store w' →
  (database.GetAllUsers rows w).1 = (database.GetAllUsers rows w').1.
Proof. intros Hst. rewrite !GetAllUsers_by_rows. destruct rows; simpl; by rewrite ?Hst. Qed.

Lemma GetAllUsers_error_iff (rows : Rows) (w : World) :
  (database.GetAllUsers rows w).1.2 = None ↔ ∀ e, rows ≠ Refuses e.
Proof.
  rewrite GetAllUsers_by_rows. destruct rows as [|e|n e]; simpl.
  - split; [by intros _ e | done].
  - split; [done|]. intros H. by destruct (H e).
  - split; [by intros _ e' | done].
Qed.

Lemma recipients_of_notices (text : string) (res : MessageConfig → option error)
    (users : list Z) :
  (λ s : MessageConfig * option error, ToChat s.1) <$>
    map (λ user, (mkMessageConfig user 0 text, res (mkMessageConfig user 0 text)))
        users = users.
Proof. induction users as [|user rest IH]; [done|]. simpl. f_equal. exact IH. Qed.

Lemma GetLatestEventDateTime_world (drv : Driver) (n : string) (w : World) :
  (database.GetLatestEventDateTime drv n w).2 = w.
Proof.
  unfold database.GetLatestEventDateTime, bind. destruct drv as [|e]; [|done].
  rewrite Query_executes. by destruct (database.select_latest n (store w)).
Qed.

Section Startup.

Import telegrambot.

Variable Format : Time → string.

Lemma notifyAllUsers_refused (env : Env) (bot : ElectroBot) (w : World) (e : error) :
  on_list env = Refuses e →
  notifyAllUsers Format env bot w =
  (Some e,
   mkWorld (store w)
     (journal w ++ [mkEntry ErrorLevel "Failed to get all users: %s" [AErr e];
                    mkEntry ErrorLevel "Failed to get all users: %s" [AErr e]])
     (outbox w)).
Proof.
  intros Hl. unfold notifyAllUsers, bind. rewrite Hl. simpl.
  unfold log. simpl. by rewrite <- app_assoc.
Qed.

(** X10: whom the boot notification reaches.  [notifyAllUsers] returns the
    error of [GetAllUsers] and sends one boot message to each identity of
    the list that [GetAllUsers] returned, in its order: no two go to the
    same chat, and each goes to an identity with a row.  The store is never
    changed.  When the list query delivers all its rows, there are as many
    messages as the registry has rows.  When [Query] returns an error,
    nothing is sent and the failure is logged, once in the database and once
    in the bot.  When the stepping fails after some rows, the function
    returns no error all the same, only the first identities of the list
    are notified, and the log has nothing but the lines of their sends. *)
Theorem notifyAllUsers_notifies_the_listed_once (env : Env) (bot : ElectroBot)
    (w : World) :
  let listed := (database.GetAllUsers (on_list env) w).1 in
  let text := bootText Format bot in
  let attempt user :=
    (mkMessageConfig user 0 text, net env (mkMessageConfig user 0 text)) in
  let r := notifyAllUsers Format env bot w in
  store r.2 = store w ∧
  r.1 = listed.2 ∧
  sent_since w r.2 = map attempt listed.1 ∧
  NoDup ((λ s, ToChat s.1) <$> sent_since w r.2) ∧
  (∀ s, s ∈ sent_since w r.2 → registered w (ToChat s.1)) ∧
  match on_list env with
  | Delivers =>
      length (sent_since w r.2) = subscribers w ∧
      logged_since w r.2 = flat_map (noticeLines env text) listed.1
  | Refuses e =>
      r.1 = Some e ∧ sent_since w r.2 = [] ∧
      logged_since w r.2 =
      [mkEntry ErrorLevel "Failed to get all users: %s" [AErr e];
       mkEntry ErrorLevel "Failed to get all users: %s" [AErr e]]
  | Breaks n e =>
      r.1 = None ∧
      length (sent_since w r.2) = min n (subscribers w) ∧
      logged_since w r.2 = flat_map (noticeLines env text) listed.1
  end.
Proof.
  intros listed text attempt r.
  pose proof (select_user_ids_NoDup (store w)) as Hnd.
  pose proof (select_user_ids_length (store w)) as Hlen.
  assert (Hlisted : ∀ users,
            listed = (users, None) →
            r = (None,
                 mkWorld (store w)
                   (journal w ++ flat_map (noticeLines env text) users)
                   (outbox w ++ map attempt users))).
  { intros users Hu. subst r. rewrite notifyAllUsers_listed by (fold listed; by rewrite Hu).
    fold listed. by rewrite Hu. }
  assert (Hto : ∀ users, (λ s : MessageConfig * option error, ToChat s.1) <$>
                           map attempt users = users)
    by (intros users; apply recipients_of_notices).
  subst listed. rewrite GetAllUsers_by_rows in Hlisted |- *.
  destruct (on_list env) as [|e|n e] eqn:Hl; simpl in *.
  - rewrite (Hlisted _ eq_refl). simpl.
    rewrite (sent_since_app w _ (map attempt (database.select_user_ids (store w))))
      by done.
    split; [done|]. split; [done|]. split; [done|]. rewrite Hto.
    split; [done|]. split.
    { intros s (user & -> & Hu)%list_elem_of_fmap. simpl.
      by apply elem_of_select_user_ids. }
    split; [by rewrite length_map | by apply logged_since_app].
  - subst r. rewrite (notifyAllUsers_refused env bot w e Hl). simpl.
    assert (Hnone : sent_since w
              (mkWorld (store w)
                 (journal w ++ [mkEntry ErrorLevel "Failed to get all users: %s" [AErr e];
                                mkEntry ErrorLevel "Failed to get all users: %s" [AErr e]])
                 (outbox w)) = []).
    { unfold sent_since. simpl. by rewrite drop_all. }
    rewrite Hnone. split; [done|]. split; [done|]. split; [done|].
    split; [constructor|]. split; [by intros s ?%elem_of_nil|].
    split; [done|]. split; [done|]. by apply logged_since_app.
  - rewrite (Hlisted _ eq_refl). simpl.
    rewrite (sent_since_app w _ (map attempt (take n (database.select_user_ids (store w)))))
      by done.
    split; [done|]. split; [done|]. split; [done|]. rewrite Hto.
    split; [by apply NoDup_take_of|]. split.
    { intros s (user & -> & Hu%elem_of_take_of)%list_elem_of_fmap. simpl.
      by apply elem_of_select_user_ids. }
    split; [done|]. split; [|by apply logged_since_app].
    by rewrite length_map, length_take, Hlen.
Qed.

(** [New] after the platform has accepted the token. *)
Lemma New_authorized (launch : Time) (env : Env) (w : World) :
  let latest := (database.GetLatestEventDateTime (on_latest env) "Bot is alive" w).1 in
  let last := match latest.2 with Some _ => now env | None => latest.1 end in
  let w1 := match latest.2 with
            | Some e =>
                mkWorld (store w)
                  (journal w ++
                     [mkEntry WarnLevel "Failed to get last alive time: %s" [AErr e]])
                  (outbox w)
            | None => w
            end in
  New Format None launch env w =
  let r := notifyAllUsers Format env (mkElectroBot launch last) w1 in
  match r.1 with
  | Some err =>
      ((None, Some err),
       mkWorld (store r.2)
         (journal r.2 ++
            [mkEntry ErrorLevel "Failed to notify all users on start: %s" [AErr err]])
         (outbox r.2))
  | None => ((Some (mkElectroBot launch last), None), r.2)
  end.
Proof.
  unfold New, bind, getLastAliveTime. cbn [GetLatestEventDateTime sqlite].
  pose proof (GetLatestEventDateTime_world (on_latest env) "Bot is alive" w) as Hw.
  destruct (database.GetLatestEventDateTime (on_latest env) "Bot is alive" w)
    as [[t lerr] w0].
  simpl in Hw. subst w0. simpl. destruct lerr as [e|]; simpl.
  - by destruct (notifyAllUsers Format env _ _) as [[err|] w2].
  - by destruct (notifyAllUsers Format env _ _) as [[err|] w2].
Qed.

(** X11: [New] gives a bot or sends nothing.  It returns no error exactly
    when the platform accepts the token and [GetAllUsers] returns a list --
    whatever the last-alive query and the sends return, and also when the
    list was cut short by a failure of the stepping.  Then the bot has the
    launch time it was given and one boot message went to each identity of
    the list that [GetAllUsers] returned; when the last-alive query failed,
    the last shutdown time of the bot is the current time.  With an error
    there is no bot and nothing was handed to [Send].  The store is not
    changed in either case. *)
Theorem New_gives_a_bot_or_sends_nothing (auth : option error) (launch : Time)
    (env : Env) (w : World) :
  let listed := (database.GetAllUsers (on_list env) w).1 in
  let r := New Format auth launch env w in
  store r.2 = store w ∧
  (r.1.2 = None ↔ auth = None ∧ listed.2 = None) ∧
  (listed.2 = None ↔ ∀ e, on_list env ≠ Refuses e) ∧
  match r.1.2 with
  | Some _ => r.1.1 = None ∧ sent_since w r.2 = []
  | None =>
      ∃ bot : ElectroBot,
        r.1.1 = Some bot ∧ launchTime bot = launch ∧
        (∀ e, on_latest env = Faults e → lastShutdownTime bot = now env) ∧
        sent_since w r.2 =
        map (λ user, (mkMessageConfig user 0 (bootText Format bot),
                      net env (mkMessageConfig user 0 (bootText Format bot))))
            listed.1
  end.
Proof.
  intros listed r. subst r listed.
  pose proof (GetAllUsers_error_iff (on_list env) w) as H3.
  destruct auth as [err|].
  { simpl. split; [done|]. split; [split; [done | intros [? ?]; congruence]|].
    split; [exact H3|]. split; [done|]. unfold sent_since. by rewrite drop_all. }
  rewrite New_authorized.
  set (latest := (database.GetLatestEventDateTime (on_latest env) "Bot is alive" w).1).
  set (last := match latest.2 with Some _ => now env | None => latest.1 end).
  set (w1 := match latest.2 with
             | Some e => mkWorld (store w) _ (outbox w)
             | None => w
             end).
  assert (Hw1 : store w1 = store w ∧ outbox w1 = outbox w)
    by (subst w1; by destruct (latest.2)).
  destruct Hw1 as [Hst Hout]. cbv zeta.
  assert (Hsame : (database.GetAllUsers (on_list env) w1).1 =
                  (database.GetAllUsers (on_list env) w).1)
    by (by apply GetAllUsers_same_store).
  revert H3 Hsame.
  destruct ((database.GetAllUsers (on_list env) w).1) as [users lerr] eqn:Hlisted.
  simpl. intros H3 Hsame. destruct lerr as [e|].
  - assert (Hl : on_list env = Refuses e).
    { rewrite GetAllUsers_by_rows in Hlisted.
      destruct (on_list env); simpl in Hlisted; congruence. }
    rewrite (notifyAllUsers_refused env _ w1 e Hl). simpl.
    split; [done|]. split; [split; [done | intros [? ?]; congruence]|].
    split; [exact H3|]. split; [done|].
    unfold sent_since. simpl. by rewrite Hout, drop_all.
  - rewrite notifyAllUsers_listed by (by rewrite Hsame). rewrite Hsame. simpl.
    split; [done|]. split; [split; [intros _; by split | done]|].
    split; [exact H3|].
    exists (mkElectroBot launch last). split; [done|]. split; [done|]. split.
    + intros e He. subst last latest. by rewrite He.
    + apply sent_since_app. simpl. by rewrite Hout.
Qed.

End Startup.

(** ** More on the event loop *)

Section Loop.

Import telegrambot.

Context {db : Storage}.

Variable Format : Time → string.

Lemma handlerLoop_stops_at_Done (bot : ElectroBot)
    (before after : list (Selected * Env)) (env : Env) (w : World) :
  handlerLoop Format bot (before ++ (Done, env) :: after) w =
  handlerLoop Format bot (before ++ [(Done, env)]) w.
Proof.
  revert w. induction before as [|[[| [message|] |] e] before IH]; intros w; simpl.
  - done.
  - unfold bind. destruct (updateIsAliveState e w) as [[] w1]. apply IH.
  - unfold bind.
    destruct ((if IsCommand message then handleTGMessageCommand Format e bot message
               else ret ()) w) as [[] w1].
    apply IH.
  - apply IH.
  - done.
Qed.

Lemma handlerLoop_returned_iff (bot : ElectroBot) (sched : list (Selected * Env))
    (w : World) :
  (handlerLoop Format bot sched w).1 = true ↔ ∃ env, (Done, env) ∈ sched.
Proof.
  revert w. induction sched as [|[[| [message|] |] e] sched IH]; intros w; simpl.
  - split; [done|]. intros [env Hin]. by apply elem_of_nil in Hin.
  - unfold bind. destruct (updateIsAliveState e w) as [[] w1]. rewrite IH.
    split; intros [env Hin]; exists env; [by right|].
    apply elem_of_cons in Hin as [[=]|Hin]; done.
  - unfold bind.
    destruct ((if IsCommand message then handleTGMessageCommand Format e bot message
               else ret ()) w) as [[] w1].
    rewrite IH. split; intros [env Hin]; exists env; [by right|].
    apply elem_of_cons in Hin as [[=]|Hin]; done.
  - rewrite IH. split; intros [env Hin]; exists env; [by right|].
    apply elem_of_cons in Hin as [[=]|Hin]; done.
  - split; [|done]. intros _. exists e. by left.
Qed.

(** X12: for every storage, the loop of [handler] passes over updates
    without a message and over messages that are not commands: a schedule
    and the same schedule without them give the same result and the same
    world, so such an update is never answered, stored or logged. *)
Theorem handlerLoop_passes_over_non_commands (bot : ElectroBot)
    (sched : list (Selected * Env)) (w : World) :
  handlerLoop Format bot sched w =
  handlerLoop Format bot (filter (λ p, ignorable p.1 = false) sched) w ∧
  (Forall (λ p, ignorable p.1 = true) sched →
   handlerLoop Format bot sched w = (false, w)).
Proof.
  split.
  - revert w. induction sched as [|[[| [message|] |] e] sched IH]; intros w.
    + done.
    + rewrite filter_cons_True by done. simpl. unfold bind.
      destruct (updateIsAliveState e w) as [[] w1]. apply IH.
    + simpl. destruct (IsCommand message) eqn:Hcmd.
      * rewrite filter_cons_True by (simpl; by rewrite Hcmd). simpl.
        rewrite Hcmd. unfold bind.
        destruct (handleTGMessageCommand Format e bot message w) as [[] w1]. apply IH.
      * rewrite filter_cons_False by (simpl; by rewrite Hcmd). unfold bind, ret.
        apply IH.
    + rewrite filter_cons_False by done. simpl. apply IH.
    + by rewrite filter_cons_True by done.
  - intros Hall. revert w.
    induction Hall as [|[[| [message|] |] e] sched Hp _ IH]; intros w; simpl in *;
      try done.
    destruct (IsCommand message); [done|]. unfold bind, ret. apply IH.
Qed.

(** X13: for every storage, the loop of [handler] returns exactly when it
    receives the cancellation: no tick and no update ends it, whatever the
    store and the platform answer.  Once it has received the cancellation,
    nothing that the schedule holds after it is handled.  The same holds for
    [handler], which runs one heartbeat and then the loop. *)
Theorem handlerLoop_returns_exactly_on_Done (env0 : Env) (bot : ElectroBot)
    (sched : list (Selected * Env)) (w : World) :
  ((handlerLoop Format bot sched w).1 = true ↔ ∃ env, (Done, env) ∈ sched) ∧
  ((handler Format env0 bot sched w).1 = true ↔ ∃ env, (Done, env) ∈ sched) ∧
  (∀ before after env,
     sched = before ++ (Done, env) :: after →
     handlerLoop Format bot sched w =
     handlerLoop Format bot (before ++ [(Done, env)]) w).
Proof.
  split; [apply handlerLoop_returned_iff|]. split.
  - unfold handler, bind. simpl.
    destruct (updateIsAliveState env0 _) as [[] w1]. apply handlerLoop_returned_iff.
  - intros before after env ->. apply handlerLoop_stops_at_Done.
Qed.

End Loop.

(** ** The earlier revision of the bot *)

Section Earlier.

Import telegrambot0.

Local Abbreviation Env := telegrambot.Env (only parsing).

Lemma serve_start (env : Env) (m : Message) (w : World) :
  Command m = "start" →
  telegrambot.on_exists env = Executes → telegrambot.on_store env = Executes →
  let got := mkEntry InfoLevel "Got a message"
               [AStr (UserName (From m)); AInt (UserID (From m))] in
  let reply text := mkMessageConfig (ChatID (InChat m)) (MessageID m) text in
  serve env m w =
  (tt,
   match tg_users (store w) !! UserID (From m) with
   | Some _ =>
       mkWorld (store w) (journal w ++ [got])
         (outbox w ++ [(reply "You're already registered",
                        telegrambot.net env (reply "You're already registered"))])
   | None =>
       mkWorld
         (database.set_tg_users (store w)
            (<[UserID (From m) :=
                 mkUserRow (UserName (From m)) (FirstName (From m)) (LastName (From m))
                   (telegrambot.now env)]> (tg_users (store w))))
         (journal w ++ [got])
         (outbox w ++ [(reply "You've been successfully registered",
                        telegrambot.net env (reply "You've been successfully registered"))])
   end).
Proof.
  intros Hc Hex Hst got reply. unfold serve, bind. rewrite Hc. simpl.
  rewrite Hex, Hst. simpl. unfold database.select_exists.
  destruct (tg_users (store w) !! UserID (From m)) as [row|] eqn:Hrow.
  - rewrite bool_decide_true by (by eexists). done.
  - rewrite bool_decide_false by (by intros [? ?]).
    rewrite StoreUserInfo_executes. simpl. by rewrite Hrow.
Qed.

Lemma serve_stop (env : Env) (m : Message) (w : World) :
  Command m = "stop" → telegrambot.on_remove env = Executes →
  let got := mkEntry InfoLevel "Got a message"
               [AStr (UserName (From m)); AInt (UserID (From m))] in
  let reply := mkMessageConfig (ChatID (InChat m)) (MessageID m)
                 "You've been successfully unregistered" in
  serve env m w =
  (tt,
   mkWorld
     (database.set_tg_users (store w) (delete (UserID (From m)) (tg_users (store w))))
     (journal w ++ [got])
     (outbox w ++ [(reply, telegrambot.net env reply)])).
Proof.
  intros Hc Hrm got reply. unfold serve, bind. rewrite Hc. simpl. by rewrite Hrm.
Qed.

(** X14: in the earlier revision the existence check, the insert and the
    delete all use the sender identity.  With the statements executed and a
    sender without a row: a ["start"] registers the sender, a second
    ["start"] of the same sender is answered with the already-registered
    text and changes nothing, and a ["stop"] of the same sender leaves the
    store as it was before the three -- whatever the chats of the three
    messages are. *)
Theorem earlier_start_and_stop_use_the_sender (env env' env'' : Env)
    (m again s : Message) (w : World) :
  Command m = "start" → Command again = "start" → Command s = "stop" →
  UserID (From again) = UserID (From m) → UserID (From s) = UserID (From m) →
  telegrambot.on_exists env = Executes → telegrambot.on_store env = Executes →
  telegrambot.on_exists env' = Executes → telegrambot.on_store env' = Executes →
  telegrambot.on_remove env'' = Executes →
  ¬ registered w (UserID (From m)) →
  let w1 := (serve env m w).2 in
  let w2 := (serve env' again w1).2 in
  let w3 := (serve env'' s w2).2 in
  let reply (to : Message) text :=
    mkMessageConfig (ChatID (InChat to)) (MessageID to) text in
  sent_since w w1 =
  [(reply m "You've been successfully registered",
    telegrambot.net env (reply m "You've been successfully registered"))] ∧
  registered w1 (UserID (From m)) ∧
  sent_since w1 w2 =
  [(reply again "You're already registered",
    telegrambot.net env' (reply again "You're already registered"))] ∧
  store w2 = store w1 ∧
  sent_since w2 w3 =
  [(reply s "You've been successfully unregistered",
    telegrambot.net env'' (reply s "You've been successfully unregistered"))] ∧
  ¬ registered w3 (UserID (From m)) ∧
  store w3 = store w.
Proof.
  intros Hm Ha Hs Hsame Hsame' Hex Hst Hex' Hst' Hrm Hno w1 w2 w3 reply.
  assert (Hnone : tg_users (store w) !! UserID (From m) = None)
    by (by apply eq_None_not_Some).
  subst w1 w2 w3.
  rewrite (serve_start env m w) by done. rewrite Hnone. simpl.
  rewrite (serve_start env' again) by done. simpl.
  rewrite Hsame, lookup_insert_eq. simpl.
  rewrite serve_stop by done. simpl. rewrite Hsame'.
  split; [by apply sent_since_app|].
  split; [unfold registered; simpl; rewrite lookup_insert_eq; by eexists|].
  split; [by apply sent_since_app|]. split; [done|].
  split; [by apply sent_since_app|]. split.
  - unfold registered. simpl. rewrite lookup_delete_eq. by intros [? ?].
  - unfold database.set_tg_users. simpl. rewrite delete_insert_id by done.
    apply tables_eta.
Qed.

Lemma serve_answers (env : Env) (m : Message) (w : World) :
  let w' := (serve env m w).2 in
  ∃ text : string,
    let reply := mkMessageConfig (ChatID (InChat m)) (MessageID m) text in
    outbox w' = outbox w ++ [(reply, telegrambot.net env reply)] ∧
    (Command m = "help" → text = "Type /start to get started" ∧ store w' = store w) ∧
    (Command m ≠ "start" → Command m ≠ "stop" → Command m ≠ "help" →
     text = "I can handle only commands. Use /help to get help" ∧ store w' = store w).
Proof.
  unfold serve, bind. simpl.
  destruct (String.eqb_spec (Command m) "start") as [H1|H1].
  { assert (Hhelp : Command m ≠ "help") by (rewrite H1; discriminate).
    destruct (telegrambot.on_exists env) as [|e]; simpl.
    - destruct (database.select_exists _ _); simpl.
      { eexists. split; [done | done]. }
      destruct (telegrambot.on_store env) as [|e'].
      + rewrite StoreUserInfo_executes. simpl.
        destruct (tg_users (store w) !! UserID (From m)); simpl;
          (eexists; split; [done | done]).
      + rewrite StoreUserInfo_faults. simpl.
        eexists. split; [done | done].
    - destruct (telegrambot.on_store env) as [|e'].
      + rewrite StoreUserInfo_executes. simpl.
        destruct (tg_users (store w) !! UserID (From m)); simpl;
          (eexists; split; [done | done]).
      + rewrite StoreUserInfo_faults. simpl.
        eexists. split; [done | done]. }
  destruct (String.eqb_spec (Command m) "stop") as [H2|H2].
  { assert (Hhelp : Command m ≠ "help") by (rewrite H2; discriminate).
    destruct (telegrambot.on_remove env) as [|e]; simpl;
      (eexists; split; [done | done]). }
  destruct (String.eqb_spec (Command m) "help") as [H3|H3]; simpl;
    (eexists; split; [done | done]).
Qed.

(** X15: the earlier revision answers every message, command or not, with
    exactly one message to the chat of the message, threaded under it;
    ["help"] is answered with its own text and whatever is none of the three
    commands -- plain text among it -- with the note that only commands are
    handled; neither changes the store. *)
Theorem earlier_loop_answers_every_message (env : Env) (m : Message) (w : World) :
  let w' := (serve env m w).2 in
  ∃ text : string,
    let reply := mkMessageConfig (ChatID (InChat m)) (MessageID m) text in
    sent_since w w' = [(reply, telegrambot.net env reply)] ∧
    (Command m = "help" → text = "Type /start to get started" ∧ store w' = store w) ∧
    (Command m ≠ "start" → Command m ≠ "stop" → Command m ≠ "help" →
     text = "I can handle only commands. Use /help to get help" ∧ store w' = store w).
Proof.
  destruct (serve_answers env m w) as (text & Hout & Hrest).
  exists text. split; [by apply sent_since_app | exact Hrest].
Qed.

Lemma greetEach_spec (env : Env) (users : list Z) (w : World) :
  greetEach env users w =
  (tt,
   mkWorld (store w)
     (journal w ++ map (λ user, mkEntry InfoLevel "User" [AInt user]) users)
     (outbox w ++ map (λ user, (mkMessageConfig user 0 "Bot started",
                                telegrambot.net env (mkMessageConfig user 0 "Bot started")))
                      users)).
Proof.
  revert w. induction users as [|user rest IH]; intros w; simpl.
  - unfold ret. by rewrite !app_nil_r, world_eta.
  - unfold bind, NewMessage. simpl. rewrite IH. simpl. by rewrite <- !app_assoc.
Qed.

Lemma serveEach_sends (updates : list (option Message * Env)) (w : World) :
  ∃ l, outbox (serveEach updates w).2 = outbox w ++ l ∧
       length l = length (filter (λ p, is_Some p.1) updates).
Proof.
  revert w. induction updates as [|[[m|] env] rest IH]; intros w.
  - exists []. simpl. by rewrite app_nil_r.
  - rewrite filter_cons_True by (by eexists). simpl. unfold bind.
    destruct (serve_answers env m w) as (text & Hout & _).
    destruct (serve env m w) as [[] w1]. simpl in *.
    destruct (IH w1) as (l & Hl & Hlen).
    eexists. rewrite Hl, Hout, <- app_assoc. split; [done|]. simpl. by rewrite Hlen.
  - rewrite filter_cons_False by (by intros [? ?]). simpl. apply IH.
Qed.

(** X16: [New] of the earlier revision greets, then answers.  It returns
    an error exactly when the platform refuses the token or [GetAllUsers]
    returns one, and then no update is served: the store is as it was and
    nothing was sent.  Otherwise it first sends the greeting to each identity
    of the list that [GetAllUsers] returned, in its order and going on when a
    send fails, and then one answer for each update that has a message.
    A list cut short by a failure of the stepping is a list like any
    other. *)
Theorem earlier_New_greets_then_answers (auth : option error) (account : string)
    (env : Env) (updates : list (option Message * Env)) (w : World) :
  let listed := (database.GetAllUsers (telegrambot.on_list env) w).1 in
  let r := New auth account env updates w in
  let greeting user :=
    (mkMessageConfig user 0 "Bot started",
     telegrambot.net env (mkMessageConfig user 0 "Bot started")) in
  (r.1 = None ↔ auth = None ∧ listed.2 = None) ∧
  (listed.2 = None ↔ ∀ e, telegrambot.on_list env ≠ Refuses e) ∧
  (r.1 ≠ None → store r.2 = store w ∧ sent_since w r.2 = []) ∧
  (r.1 = None →
   take (length listed.1) (sent_since w r.2) = map greeting listed.1 ∧
   length (sent_since w r.2) =
   (length listed.1 + length (filter (λ p, is_Some p.1) updates))%nat).
Proof.
  intros listed r greeting. subst r listed.
  pose proof (GetAllUsers_error_iff (telegrambot.on_list env) w) as H2.
  unfold New. destruct auth as [err|].
  { simpl. split; [split; [done | intros [? ?]; congruence]|]. split; [exact H2|].
    split; [|done]. intros _. split; [done|]. unfold sent_since. by rewrite drop_all. }
  unfold bind. simpl.
  change (GetAllUsers (telegrambot.on_list env))
    with (database.GetAllUsers (telegrambot.on_list env)).
  revert H2. rewrite !GetAllUsers_by_rows.
  assert (Hgreeted : ∀ users : list Z,
            let v := (greetEach env users
                        (mkWorld (store w)
                           (journal w ++ [mkEntry DebugLevel "Authorized on account "
                                            [AStr account]])
                           (outbox w))).2 in
            let r := serveEach updates v in
            take (length users) (sent_since w r.2) = map greeting users ∧
            length (sent_since w r.2) =
            (length users + length (filter (λ p, is_Some p.1) updates))%nat).
  { intros users v r. subst v r. rewrite greetEach_spec. simpl.
    match goal with
    | |- context [serveEach updates ?v] =>
        destruct (serveEach_sends updates v) as (l & Hl & Hlen)
    end.
    simpl in Hl. unfold sent_since. rewrite Hl, <- app_assoc, drop_app_length. split.
    - rewrite take_app_length'; [done|]. by rewrite length_map.
    - rewrite length_app, length_map, Hlen. done. }
  destruct (telegrambot.on_list env) as [|e|n e]; simpl; intros H2.
  - specialize (Hgreeted (database.select_user_ids (store w))). simpl in Hgreeted.
    destruct (greetEach env _ _) as [[] v]. simpl in Hgreeted.
    destruct (serveEach updates v) as [[] w2]. simpl in *.
    split; [split; [intros _; by split | done]|]. split; [exact H2|].
    split; [done|]. intros _. exact Hgreeted.
  - split; [split; [done | intros [? ?]; congruence]|]. split; [exact H2|].
    split; [|done]. intros _. split; [done|]. unfold sent_since. simpl.
    by rewrite drop_all.
  - specialize (Hgreeted (take n (database.select_user_ids (store w)))).
    simpl in Hgreeted.
    destruct (greetEach env _ _) as [[] v]. simpl in Hgreeted.
    destruct (serveEach updates v) as [[] w2]. simpl in *.
    split; [split; [intros _; by split | done]|]. split; [exact H2|].
    split; [done|]. intros _. exact Hgreeted.
Qed.

End Earlier.

(** ** The further theorems at concrete inputs *)

(** ["stop"] from a chat that has no row, on the empty registry. *)
Lemma stop_reply_witness :
  let w := mkWorld (mkTables ∅ [] 0) [] [] in
  let m := mkMessage 12 (mkUser 7 "u" "g" "f") (mkChat 7) true "stop" in
  let w' := (telegrambot.handleTGMessageCommand (λ _, "") (telegrambot.calm 1)
               (telegrambot.mkElectroBot 0 0) m w).2 in
  sent_since w w' = [(mkMessageConfig 7 12 "You've been successfully unregistered", None)] ∧
  ¬ registered w' 7 ∧
  (¬ registered w 7 → store w' = store w).
Proof.
  exact (stop_reply (λ _, "") (telegrambot.calm 1) (telegrambot.mkElectroBot 0 0)
           (mkMessage 12 (mkUser 7 "u" "g" "f") (mkChat 7) true "stop")
           (mkWorld (mkTables ∅ [] 0) [] []) eq_refl).
Defined.

(** Identity 7 has a row and sends ["start"] in its private chat while the
    existence query fails (SQLITE_BUSY): the reply is the failure text. *)
Lemma start_after_failed_existence_check_witness :
  let w := mkWorld (mkTables {[ 7 := mkUserRow "u" "g" "f" 0 ]} [] 0) [] [] in
  let m := mkMessage 11 (mkUser 7 "u" "g" "f") (mkChat 7) true "start" in
  let env := telegrambot.mkEnv (Faults (ErrDriver 5)) Executes Executes Executes
               Executes Executes Executes 1 (λ _, None) in
  let w' := (telegrambot.handleTGMessageCommand (λ _, "") env
               (telegrambot.mkElectroBot 0 0) m w).2 in
  sent_since w w' =
  [(mkMessageConfig 7 11 "Failed to register you. Please try again later", None)] ∧
  store w' = store w.
Proof.
  intros w m env w'.
  assert (Hreg : registered w (UserID (From m))).
  { exists (mkUserRow "u" "g" "f" 0). reflexivity. }
  exact (proj2 (proj2 (start_after_failed_existence_check (λ _, "") env
                         (telegrambot.mkElectroBot 0 0) m w (ErrDriver 5)
                         eq_refl eq_refl eq_refl)) Hreg).
Defined.

(** Identity 7 sends ["start"] and then ["stop"] in the chat -1001, on the
    empty registry: it still has its row. *)
Lemma start_then_stop_witness :
  let w := mkWorld (mkTables ∅ [] 0) [] [] in
  let m := mkMessage 11 (mkUser 7 "u" "g" "f") (mkChat (-1001)) true "start" in
  let s := mkMessage 12 (mkUser 7 "u" "g" "f") (mkChat (-1001)) true "stop" in
  let handle := telegrambot.handleTGMessageCommand (λ _, "") (telegrambot.calm 1)
                  (telegrambot.mkElectroBot 0 0) in
  let w1 := (handle m w).2 in
  let w2 := (handle s w1).2 in
  sent_since w1 w2 =
  [(mkMessageConfig (-1001) 12 "You've been successfully unregistered", None)] ∧
  registered w2 7.
Proof.
  intros w m s handle w1 w2.
  assert (Hnone : ∀ i, ¬ registered w i).
  { intros i [row Hrow]. simpl in Hrow. by rewrite lookup_empty in Hrow. }
  pose proof (start_then_stop (λ _, "") (telegrambot.calm 1) (telegrambot.calm 1)
                (telegrambot.mkElectroBot 0 0) m s w
                eq_refl eq_refl eq_refl eq_refl eq_refl eq_refl (Hnone _) (Hnone _))
    as (_ & Hsent & _ & Hstays).
  split; [exact Hsent|]. apply Hstays. simpl. lia.
Defined.

(** Identity 7 sends ["start"] in its private chat, on the empty
    registry. *)
Lemma start_in_private_chat_registers_once_witness :
  let w := mkWorld (mkTables ∅ [] 0) [] [] in
  let m := mkMessage 11 (mkUser 7 "u" "g" "f") (mkChat 7) true "start" in
  let w' := (telegrambot.handleTGMessageCommand (λ _, "") (telegrambot.calm 1)
               (telegrambot.mkElectroBot 0 0) m w).2 in
  sent_since w w' =
  [(mkMessageConfig 7 11 "You've been successfully registered", None)] ∧
  registered w' 7 ∧ subscribers w' = 1%nat.
Proof.
  intros w m w'.
  assert (Hno : ¬ registered w (UserID (From m))).
  { intros [row Hrow]. simpl in Hrow. by rewrite lookup_empty in Hrow. }
  pose proof (proj2 (start_in_private_chat_registers_once (λ _, "")
                       (telegrambot.calm 1) (telegrambot.mkElectroBot 0 0) m w
                       eq_refl eq_refl eq_refl) Hno) as (Hsent & Hreg & Hsize & _).
  split; [exact Hsent|]. split; [exact Hreg | exact Hsize].
Defined.

(** In the earlier revision identity 7 sends ["start"] in the chat -1001,
    ["start"] again in the chat -2002 and ["stop"] in its private chat. *)
Lemma earlier_start_and_stop_use_the_sender_witness :
  let w := mkWorld (mkTables ∅ [] 0) [] [] in
  let m := mkMessage 11 (mkUser 7 "u" "g" "f") (mkChat (-1001)) true "start" in
  let again := mkMessage 12 (mkUser 7 "u" "g" "f") (mkChat (-2002)) true "start" in
  let s := mkMessage 13 (mkUser 7 "u" "g" "f") (mkChat 7) true "stop" in
  let w1 := (telegrambot0.serve (telegrambot.calm 1) m w).2 in
  let w2 := (telegrambot0.serve (telegrambot.calm 2) again w1).2 in
  let w3 := (telegrambot0.serve (telegrambot.calm 3) s w2).2 in
  sent_since w1 w2 = [(mkMessageConfig (-2002) 12 "You're already registered", None)] ∧
  store w3 = store w.
Proof.
  intros w m again s w1 w2 w3.
  assert (Hno : ¬ registered w (UserID (From m))).
  { intros [row Hrow]. simpl in Hrow. by rewrite lookup_empty in Hrow. }
  pose proof (earlier_start_and_stop_use_the_sender (telegrambot.calm 1)
                (telegrambot.calm 2) (telegrambot.calm 3) m again s w
                eq_refl eq_refl eq_refl eq_refl eq_refl eq_refl eq_refl eq_refl
                eq_refl eq_refl Hno)
    as (_ & _ & Hsent & _ & _ & _ & Hstore).
  split; [exact Hsent | exact Hstore].
Defined.
